(** * gpu-grab: a shallow embedding of the scheduler core

    The development follows the Python sources of [gpu_grab]:
    - [models.py]        : [TaskStatus], [GPURequirement], [Task], [GPUStatus]
                           and the dictionary form ([to_dict] / [from_dict]);
    - [gpu_monitor.py]   : [GPUMonitor.check_requirements];
    - [queue_manager.py] : the task store ([QueueManager]);
    - [task_runner.py]   : [TaskRunner.start_task], [check_task], [kill_task];
    - [scheduler.py]     : the reap and admission phases of a tick;
    - [__main__.py]      : the request handlers [handle_submit], [handle_cancel];
    - [server.py]        : [UnixSocketServer._process_request].

    Conventions.  Python [int] is [Z].  A Python [float] is modelled by the
    rational it denotes ([Q]); the only float operation of the sources,
    [free_memory_mb / 1024.0], is exact on such values.  [Optional[T]] is
    [option T].  A [dict] whose order is observable is an association list.
    The operating system, the NVML library and the clock are oracles
    collected in the record [Env]. *)

From Stdlib Require Import ZArith QArith Lia List String Ascii.
From stdpp Require Import base option list strings gmap pretty sorting.

Local Close Scope Q_scope.
Local Open Scope string_scope.
Local Open Scope list_scope.
Local Open Scope Z_scope.

(** ** [datetime]

    A naive [datetime.datetime] is its seven components.  Python only ever
    builds values satisfying [dt_valid]; comparison is lexicographic on the
    components. *)

Module DateTime.

Record datetime := mk_datetime {
  year : Z; month : Z; day : Z;
  hour : Z; minute : Z; second : Z; microsecond : Z
}.

#[global] Instance datetime_eq_dec : EqDecision datetime.
Proof. solve_decision. Defined.

Definition is_leap (y : Z) : bool :=
  (y mod 4 =? 0) && (negb (y mod 100 =? 0) || (y mod 400 =? 0)).

Definition days_in_month (y m : Z) : Z :=
  if m =? 2 then (if is_leap y then 29 else 28)
  else if (m =? 4) || (m =? 6) || (m =? 9) || (m =? 11) then 30
  else 31.

(** The range checks of the [datetime] constructor. *)
Definition dt_validb (d : datetime) : bool :=
  (1 <=? year d) && (year d <=? 9999) &&
  (1 <=? month d) && (month d <=? 12) &&
  (1 <=? day d) && (day d <=? days_in_month (year d) (month d)) &&
  (0 <=? hour d) && (hour d <=? 23) &&
  (0 <=? minute d) && (minute d <=? 59) &&
  (0 <=? second d) && (second d <=? 59) &&
  (0 <=? microsecond d) && (microsecond d <=? 999999).

Definition dt_valid (d : datetime) : Prop := dt_validb d = true.

(** *** Ordering *)

Definition dt_fields (d : datetime) : list Z :=
  [year d; month d; day d; hour d; minute d; second d; microsecond d].

Fixpoint lex_compare (a b : list Z) : comparison :=
  match a, b with
  | [], [] => Eq
  | [], _ :: _ => Lt
  | _ :: _, [] => Gt
  | x :: a', y :: b' =>
      match Z.compare x y with
      | Eq => lex_compare a' b'
      | c => c
      end
  end.

Definition dt_compare (a b : datetime) : comparison :=
  lex_compare (dt_fields a) (dt_fields b).

(** [a < b], [a <= b], [a > b] on datetimes. *)
Definition dt_ltb (a b : datetime) : bool :=
  match dt_compare a b with Lt => true | _ => false end.
Definition dt_leb (a b : datetime) : bool :=
  match dt_compare a b with Gt => false | _ => true end.
Definition dt_gtb (a b : datetime) : bool := dt_ltb b a.

(** *** [isoformat] and [fromisoformat] *)

Definition digit_char (d : Z) : ascii :=
  ascii_of_nat (48 + Z.to_nat d).

Definition digit_val (c : ascii) : option Z :=
  let n := Z.of_nat (nat_of_ascii c) in
  if (48 <=? n) && (n <=? 57) then Some (n - 48) else None.

(** ["%0kd" % v] for [0 <= v < 10^k]. *)
Fixpoint pad (k : nat) (v : Z) : list ascii :=
  match k with
  | O => []
  | S k' => pad k' (v / 10) ++ [digit_char (v mod 10)]
  end.

(** [int(s)] on a string of decimal digits. *)
Fixpoint parse_digits (acc : Z) (l : list ascii) : option Z :=
  match l with
  | [] => Some acc
  | c :: l' =>
      match digit_val c with
      | Some d => parse_digits (acc * 10 + d) l'
      | None => None
      end
  end.

Definition isoformat_chars (d : datetime) : list ascii :=
  pad 4 (year d) ++ ["-"%char] ++ pad 2 (month d) ++ ["-"%char] ++
  pad 2 (day d) ++ ["T"%char] ++
  pad 2 (hour d) ++ [":"%char] ++ pad 2 (minute d) ++ [":"%char] ++
  pad 2 (second d) ++
  (if microsecond d =? 0 then [] else "."%char :: pad 6 (microsecond d)).

(** [datetime.isoformat()]: [YYYY-MM-DDTHH:MM:SS], followed by [.ffffff]
    when the microsecond component is not zero. *)
Definition isoformat (d : datetime) : string :=
  string_of_list_ascii (isoformat_chars d).

Definition parse_fraction (l : list ascii) : option Z :=
  match l with
  | [] => Some 0
  | "."%char :: ((_ :: _ :: _ :: _ :: _ :: _ :: []) as ds) => parse_digits 0 ds
  | _ => None
  end.

Definition fromisoformat_chars (l : list ascii) : option datetime :=
  match l with
  | y1 :: y2 :: y3 :: y4 :: "-"%char :: m1 :: m2 :: "-"%char :: d1 :: d2 ::
    "T"%char :: h1 :: h2 :: ":"%char :: n1 :: n2 :: ":"%char :: s1 :: s2 ::
    rest =>
      y ← parse_digits 0 [y1; y2; y3; y4];
      m ← parse_digits 0 [m1; m2];
      d ← parse_digits 0 [d1; d2];
      h ← parse_digits 0 [h1; h2];
      n ← parse_digits 0 [n1; n2];
      s ← parse_digits 0 [s1; s2];
      us ← parse_fraction rest;
      let r := mk_datetime y m d h n s us in
      if dt_validb r then Some r else None
  | _ => None
  end.

(** [datetime.fromisoformat] on the two layouts [isoformat] emits for a
    naive datetime.  [None] is [ValueError]; it also stands for the other
    layouts the library accepts (date only, other separators, offsets),
    which the daemon never writes. *)
Definition fromisoformat (s : string) : option datetime :=
  fromisoformat_chars (list_ascii_of_string s).

(** *** [datetime - timedelta(days=n)] *)

Definition days_before_year (y : Z) : Z :=
  let p := y - 1 in p * 365 + p / 4 - p / 100 + p / 400.

Fixpoint days_before_month_aux (y : Z) (m : nat) : Z :=
  match m with
  | O => 0
  | S m' => days_before_month_aux y m' + days_in_month y (Z.of_nat m)
  end.

Definition days_before_month (y m : Z) : Z :=
  days_before_month_aux y (Z.to_nat (m - 1)).

Definition toordinal (d : datetime) : Z :=
  days_before_year (year d) + days_before_month (year d) (month d) + day d.

(** Month and day from the zero-based day of the year. *)
Fixpoint month_of_yday (y : Z) (fuel : nat) (m n : Z) : Z * Z :=
  match fuel with
  | O => (m, n + 1)
  | S fuel' =>
      if n <? days_in_month y m then (m, n + 1)
      else month_of_yday y fuel' (m + 1) (n - days_in_month y m)
  end.

Definition ord2ymd (o : Z) : Z * Z * Z :=
  let n := o - 1 in
  let n400 := n / 146097 in let n := n mod 146097 in
  let n100 := n / 36524 in let n := n mod 36524 in
  let n4 := n / 1461 in let n := n mod 1461 in
  let n1 := n / 365 in let n := n mod 365 in
  let y := n400 * 400 + 1 + n100 * 100 + n4 * 4 + n1 in
  if (n1 =? 4) || (n100 =? 4) then (y - 1, 12, 31)
  else let '(m, d) := month_of_yday y 11 1 n in (y, m, d).

(** [d - timedelta(days=n)]; [None] is [OverflowError]. *)
Definition sub_days (d : datetime) (n : Z) : option datetime :=
  if 999999999 <? Z.abs n then None
  else
    let o := toordinal d - n in
    if (0 <? o) && (o <=? 3652059) then
      let '(y, m, dd) := ord2ymd o in
      Some (mk_datetime y m dd (hour d) (minute d) (second d) (microsecond d))
    else None.

End DateTime.
Export DateTime.

(** ** Python values

    The values a decoded JSON document (and a [to_dict] result) is made of. *)

#[local] Unset Elimination Schemes.
Inductive pyval :=
| PNone
| PBool (b : bool)
| PInt (z : Z)
| PFloat (q : Q)
| PStr (s : string)
| PList (l : list pyval)
| PDict (kvs : list (string * pyval)).
#[local] Set Elimination Schemes.

(** Truth value of an object, as tested by [if x], [x and ...], [not x]. *)
Definition truthy (v : pyval) : bool :=
  match v with
  | PNone => false
  | PBool b => b
  | PInt z => negb (z =? 0)
  | PFloat q => negb (Qeq_bool q 0%Q)
  | PStr s => negb (String.eqb s "")
  | PList l => match l with [] => false | _ => true end
  | PDict kvs => match kvs with [] => false | _ => true end
  end.

Fixpoint assoc {A} (k : string) (kvs : list (string * A)) : option A :=
  match kvs with
  | [] => None
  | (k', v) :: kvs' => if String.eqb k' k then Some v else assoc k kvs'
  end.

(** [d.get(k)], [d.get(k, default)] and [d[k]] ([None] is [KeyError]). *)
Definition dict_get (k : string) (d : list (string * pyval)) : pyval :=
  default PNone (assoc k d).
Definition dict_get_default (k : string) (dflt : pyval) (d : list (string * pyval)) : pyval :=
  default dflt (assoc k d).
Definition dict_item (k : string) (d : list (string * pyval)) : option pyval :=
  assoc k d.

(** Reading a value at the type a dataclass field declares.  [None] means
    the value has another type. *)
Definition as_str (v : pyval) : option string :=
  match v with PStr s => Some s | _ => None end.
Definition as_int (v : pyval) : option Z :=
  match v with PInt z => Some z | _ => None end.
Definition as_float (v : pyval) : option Q :=
  match v with PFloat q => Some q | PInt z => Some (inject_Z z) | _ => None end.
Definition as_opt_int (v : pyval) : option (option Z) :=
  match v with PNone => Some None | PInt z => Some (Some z) | _ => None end.
Definition as_int_list (v : pyval) : option (list Z) :=
  match v with PList l => mapM as_int l | _ => None end.
Definition as_opt_int_list (v : pyval) : option (option (list Z)) :=
  match v with
  | PNone => Some None
  | PList l => Some <$> mapM as_int l
  | _ => None
  end.
Definition as_str_dict (v : pyval) : option (list (string * string)) :=
  match v with
  | PDict kvs => mapM (fun kv => s ← as_str kv.2; Some (kv.1, s)) kvs
  | _ => None
  end.

Definition of_opt_int (o : option Z) : pyval :=
  match o with Some z => PInt z | None => PNone end.
Definition of_int_list (l : list Z) : pyval := PList (PInt <$> l).
Definition of_str_dict (e : list (string * string)) : pyval :=
  PDict ((fun kv => (kv.1, PStr kv.2)) <$> e).

(** ** [models.py] *)

Inductive TaskStatus := PENDING | RUNNING | COMPLETED | FAILED | CANCELLED.

#[global] Instance TaskStatus_eq_dec : EqDecision TaskStatus.
Proof. solve_decision. Defined.

Module TaskStatus_.
(** [status.value] *)
Definition value (s : TaskStatus) : string :=
  match s with
  | PENDING => "pending" | RUNNING => "running" | COMPLETED => "completed"
  | FAILED => "failed" | CANCELLED => "cancelled"
  end.

(** [TaskStatus(v)]; [None] is [ValueError]. *)
Definition of_value (v : pyval) : option TaskStatus :=
  match v with
  | PStr s =>
      if String.eqb s "pending" then Some PENDING
      else if String.eqb s "running" then Some RUNNING
      else if String.eqb s "completed" then Some COMPLETED
      else if String.eqb s "failed" then Some FAILED
      else if String.eqb s "cancelled" then Some CANCELLED
      else None
  | _ => None
  end.
End TaskStatus_.

Module GPURequirement.
Record t := mk {
  gpu_ids : option (list Z);
  min_free_memory_gb : Q;
  max_util_percent : Q;
  gpu_count : Z
}.

Definition to_dict (r : t) : pyval :=
  PDict [
    ("gpu_ids", match gpu_ids r with Some l => of_int_list l | None => PNone end);
    ("min_free_memory_gb", PFloat (min_free_memory_gb r));
    ("max_util_percent", PFloat (max_util_percent r));
    ("gpu_count", PInt (gpu_count r))
  ].

Definition from_dict (data : pyval) : option t :=
  match data with
  | PDict d =>
      ids ← as_opt_int_list (dict_get "gpu_ids" d);
      mem ← as_float (dict_get_default "min_free_memory_gb" (PFloat 0%Q) d);
      util ← as_float (dict_get_default "max_util_percent" (PFloat 100%Q) d);
      cnt ← as_int (dict_get_default "gpu_count" (PInt 1) d);
      Some (mk ids mem util cnt)
  | _ => None
  end.
End GPURequirement.

Module Task.
Record t := mk {
  id : string;
  name : string;
  command : string;
  working_dir : string;
  env : list (string * string);
  requirements : GPURequirement.t;
  status : TaskStatus;
  priority : Z;
  created_at : datetime;
  started_at : option datetime;
  finished_at : option datetime;
  assigned_gpus : list Z;
  pid : option Z;
  exit_code : option Z;
  error_message : string;
  log_file : string
}.

Definition of_opt_datetime (o : option datetime) : pyval :=
  match o with Some d => PStr (isoformat d) | None => PNone end.

Definition to_dict (k : t) : pyval :=
  PDict [
    ("id", PStr (id k));
    ("name", PStr (name k));
    ("command", PStr (command k));
    ("working_dir", PStr (working_dir k));
    ("env", of_str_dict (env k));
    ("requirements", GPURequirement.to_dict (requirements k));
    ("status", PStr (TaskStatus_.value (status k)));
    ("priority", PInt (priority k));
    ("created_at", PStr (isoformat (created_at k)));
    ("started_at", of_opt_datetime (started_at k));
    ("finished_at", of_opt_datetime (finished_at k));
    ("assigned_gpus", of_int_list (assigned_gpus k));
    ("pid", of_opt_int (pid k));
    ("exit_code", of_opt_int (exit_code k));
    ("error_message", PStr (error_message k));
    ("log_file", PStr (log_file k))
  ].

(** [datetime.fromisoformat(data[key]) if data.get(key) else None] *)
Definition opt_datetime_item (key : string) (d : list (string * pyval))
  : option (option datetime) :=
  if truthy (dict_get key d) then
    v ← dict_item key d; s ← as_str v; Some <$> fromisoformat s
  else Some None.

(** [Task.from_dict(data)], with [now] the value of [datetime.now()].
    [None] stands for an exception ([KeyError], [ValueError], ...) and for
    a dictionary whose values do not have the declared field types. *)
Definition from_dict (now : datetime) (data : pyval) : option t :=
  match data with
  | PDict d =>
      i ← dict_item "id" d ≫= as_str;
      n ← as_str (dict_get_default "name" (PStr "") d);
      c ← as_str (dict_get_default "command" (PStr "") d);
      w ← as_str (dict_get_default "working_dir" (PStr "") d);
      e ← as_str_dict (dict_get_default "env" (PDict []) d);
      r ← GPURequirement.from_dict (dict_get_default "requirements" (PDict []) d);
      s ← TaskStatus_.of_value (dict_get_default "status" (PStr "pending") d);
      p ← as_int (dict_get_default "priority" (PInt 0) d);
      ca ← default now <$> opt_datetime_item "created_at" d;
      sa ← opt_datetime_item "started_at" d;
      fa ← opt_datetime_item "finished_at" d;
      g ← as_int_list (dict_get_default "assigned_gpus" (PList []) d);
      pi ← as_opt_int (dict_get "pid" d);
      ec ← as_opt_int (dict_get "exit_code" d);
      em ← as_str (dict_get_default "error_message" (PStr "") d);
      lf ← as_str (dict_get_default "log_file" (PStr "") d);
      Some (mk i n c w e r s p ca sa fa g pi ec em lf)
  | _ => None
  end.

(** Field updates ([task.status = ...] and the like). *)
Definition with_status (s : TaskStatus) (k : t) : t :=
  mk (id k) (name k) (command k) (working_dir k) (env k) (requirements k)
     s (priority k) (created_at k) (started_at k) (finished_at k)
     (assigned_gpus k) (pid k) (exit_code k) (error_message k) (log_file k).
Definition with_started_at (d : option datetime) (k : t) : t :=
  mk (id k) (name k) (command k) (working_dir k) (env k) (requirements k)
     (status k) (priority k) (created_at k) d (finished_at k)
     (assigned_gpus k) (pid k) (exit_code k) (error_message k) (log_file k).
Definition with_finished_at (d : option datetime) (k : t) : t :=
  mk (id k) (name k) (command k) (working_dir k) (env k) (requirements k)
     (status k) (priority k) (created_at k) (started_at k) d
     (assigned_gpus k) (pid k) (exit_code k) (error_message k) (log_file k).
Definition with_assigned_gpus (g : list Z) (k : t) : t :=
  mk (id k) (name k) (command k) (working_dir k) (env k) (requirements k)
     (status k) (priority k) (created_at k) (started_at k) (finished_at k)
     g (pid k) (exit_code k) (error_message k) (log_file k).
Definition with_pid (p : option Z) (k : t) : t :=
  mk (id k) (name k) (command k) (working_dir k) (env k) (requirements k)
     (status k) (priority k) (created_at k) (started_at k) (finished_at k)
     (assigned_gpus k) p (exit_code k) (error_message k) (log_file k).
Definition with_exit_code (c : option Z) (k : t) : t :=
  mk (id k) (name k) (command k) (working_dir k) (env k) (requirements k)
     (status k) (priority k) (created_at k) (started_at k) (finished_at k)
     (assigned_gpus k) (pid k) c (error_message k) (log_file k).
Definition with_error_message (m : string) (k : t) : t :=
  mk (id k) (name k) (command k) (working_dir k) (env k) (requirements k)
     (status k) (priority k) (created_at k) (started_at k) (finished_at k)
     (assigned_gpus k) (pid k) (exit_code k) m (log_file k).
Definition with_log_file (f : string) (k : t) : t :=
  mk (id k) (name k) (command k) (working_dir k) (env k) (requirements k)
     (status k) (priority k) (created_at k) (started_at k) (finished_at k)
     (assigned_gpus k) (pid k) (exit_code k) (error_message k) f.
End Task.

Module GPUStatus.
Record t := mk {
  index : Z;
  name : string;
  total_memory_mb : Z;
  used_memory_mb : Z;
  free_memory_mb : Z;
  utilization_percent : Z;
  temperature : Z
}.

(** [free_memory_mb / 1024.0] *)
Definition free_memory_gb (g : t) : Q := Qmake (free_memory_mb g) 1024.

Definition is_idle (g : t) : bool := utilization_percent g <? 5.
End GPUStatus.

Definition is_terminal (s : TaskStatus) : bool :=
  match s with COMPLETED | FAILED | CANCELLED => true | _ => false end.

(** ** [gpu_monitor.py] *)

(** What NVML reports for one device; memory is in bytes. *)
Record nvml_device := {
  dev_name : string;
  mem_total : Z; mem_used : Z; mem_free : Z;
  util_gpu : Z;
  dev_temperature : Z
}.

(** The state of the NVML library at one call.  [None] is [NVMLError].
    The monitor is initialised once, before the first tick
    ([Scheduler.start]), so [initialize] is a no-op inside a tick. *)
Record Nvml := {
  nvmlDeviceGetCount : option Z;
  nvmlDevice : Z -> option nvml_device
}.

Definition Qltb (a b : Q) : bool := negb (Qle_bool b a).
Definition Qgtb (a b : Q) : bool := Qltb b a.

(** [x in l] on a list of integers. *)
Definition py_in (x : Z) (l : list Z) : bool := existsb (Z.eqb x) l.

(** [l[:n]], with Python's reading of a negative bound. *)
Definition slice_to {A} (n : Z) (l : list A) : list A :=
  if 0 <=? n then take (Z.to_nat n) l
  else take (Z.to_nat (Z.of_nat (length l) + n)) l.

Module GPUMonitor.

Definition get_gpu_count (nv : Nvml) : Z :=
  match nvmlDeviceGetCount nv with Some c => c | None => 0 end.

Definition get_gpu_status (nv : Nvml) (index : Z) : option GPUStatus.t :=
  d ← nvmlDevice nv index;
  Some (GPUStatus.mk index (dev_name d)
          (mem_total d / (1024 * 1024))
          (mem_used d / (1024 * 1024))
          (mem_free d / (1024 * 1024))
          (util_gpu d) (dev_temperature d)).

(** [[self.get_gpu_status(i) for i in range(count)]] *)
Definition get_all_gpu_status (nv : Nvml) : option (list GPUStatus.t) :=
  mapM (get_gpu_status nv) (seqZ 0 (get_gpu_count nv)).

(** The body of the [for gpu in all_gpus] loop: the three [continue]
    tests, then [candidates.append(gpu.index)]. *)
Fixpoint candidates (req : GPURequirement.t) (all_gpus : list GPUStatus.t) : list Z :=
  match all_gpus with
  | [] => []
  | gpu :: rest =>
      if (match GPURequirement.gpu_ids req with
          | Some (i :: ids) => negb (py_in (GPUStatus.index gpu) (i :: ids))
          | _ => false
          end)
      then candidates req rest
      else if Qltb (GPUStatus.free_memory_gb gpu) (GPURequirement.min_free_memory_gb req)
      then candidates req rest
      else if Qgtb (inject_Z (GPUStatus.utilization_percent gpu))
                   (GPURequirement.max_util_percent req)
      then candidates req rest
      else GPUStatus.index gpu :: candidates req rest
  end.

(** [check_requirements] once the snapshot is taken. *)
Definition select (req : GPURequirement.t) (all_gpus : list GPUStatus.t)
  : option (list Z) :=
  let c := candidates req all_gpus in
  if GPURequirement.gpu_count req <=? Z.of_nat (length c)
  then Some (slice_to (GPURequirement.gpu_count req) c)
  else None.

Definition check_requirements (nv : Nvml) (req : GPURequirement.t)
  : option (list Z) :=
  match get_all_gpu_status nv with
  | None => None
  | Some all_gpus => select req all_gpus
  end.

End GPUMonitor.

(** [if available_gpus:] on an [Optional[list[int]]]. *)
Definition gpus_truthy (a : option (list Z)) : bool :=
  match a with Some (_ :: _) => true | _ => false end.

(** ** [queue_manager.py]

    The store is the decoded content of [tasks.json]: the list of records
    in file order. *)

Definition has_status (s : TaskStatus) (k : Task.t) : bool :=
  bool_decide (Task.status k = s).

(** Python's [sorted(l, key=...)] is stable: insertion into a sorted list
    before the first element that is not smaller. *)
Section Sorted.
Context {A : Type} (leb : A -> A -> bool).

Fixpoint insert_sorted (x : A) (l : list A) : list A :=
  match l with
  | [] => [x]
  | y :: l' => if leb x y then x :: y :: l' else y :: insert_sorted x l'
  end.

Fixpoint sorted (l : list A) : list A :=
  match l with
  | [] => []
  | x :: l' => insert_sorted x (sorted l')
  end.
End Sorted.

(** [(-a.priority, a.created_at) <= (-b.priority, b.created_at)] *)
Definition pending_key_leb (a b : Task.t) : bool :=
  match Z.compare (- Task.priority a) (- Task.priority b) with
  | Lt => true
  | Gt => false
  | Eq => dt_leb (Task.created_at a) (Task.created_at b)
  end.

Module QueueManager.

Definition _save_tasks (tasks : list Task.t) : pyval :=
  PList (Task.to_dict <$> tasks).

(** The decoded file is a JSON array; [None] is an exception of
    [Task.from_dict]. *)
Definition _load_tasks (now : datetime) (file : list pyval) : option (list Task.t) :=
  mapM (Task.from_dict now) file.

Definition add_task (tasks : list Task.t) (task : Task.t) : list Task.t * string :=
  (tasks ++ [task], Task.id task).

Fixpoint get_task (tasks : list Task.t) (task_id : string) : option Task.t :=
  match tasks with
  | [] => None
  | k :: rest => if String.eqb (Task.id k) task_id then Some k else get_task rest task_id
  end.

(** Replaces the first record with the id of [task]; [break]. *)
Fixpoint update_task (tasks : list Task.t) (task : Task.t) : list Task.t :=
  match tasks with
  | [] => []
  | k :: rest =>
      if String.eqb (Task.id k) (Task.id task) then task :: rest
      else k :: update_task rest task
  end.

Definition remove_task (tasks : list Task.t) (task_id : string) : list Task.t * bool :=
  let kept := filter (λ k, Task.id k ≠ task_id) tasks in
  if (length kept <? length tasks)%nat then (kept, true) else (tasks, false).

Definition get_all_tasks (tasks : list Task.t) : list Task.t := tasks.

Definition get_pending_tasks (tasks : list Task.t) : list Task.t :=
  sorted pending_key_leb (filter (λ k, Task.status k = PENDING) tasks).

Definition get_running_tasks (tasks : list Task.t) : list Task.t :=
  filter (λ k, Task.status k = RUNNING) tasks.

Definition get_tasks_by_status (tasks : list Task.t) (s : TaskStatus) : list Task.t :=
  filter (λ k, Task.status k = s) tasks.

Definition cancel_task (now : datetime) (tasks : list Task.t) (task_id : string)
  : list Task.t * bool :=
  match get_task tasks task_id with
  | Some task =>
      if has_status PENDING task then
        (update_task tasks
           (Task.with_finished_at (Some now) (Task.with_status CANCELLED task)),
         true)
      else (tasks, false)
  | None => (tasks, false)
  end.

Record statistics := {
  total : nat; pending : nat; running : nat;
  completed : nat; failed : nat; cancelled : nat
}.

Definition get_statistics (tasks : list Task.t) : statistics :=
  {| total := length tasks;
     pending := length (filter (λ k, Task.status k = PENDING) tasks);
     running := length (filter (λ k, Task.status k = RUNNING) tasks);
     completed := length (filter (λ k, Task.status k = COMPLETED) tasks);
     failed := length (filter (λ k, Task.status k = FAILED) tasks);
     cancelled := length (filter (λ k, Task.status k = CANCELLED) tasks) |}.

(** The condition of the list comprehension of [cleanup_old_tasks]. *)
Definition cleanup_keeps (cutoff : datetime) (k : Task.t) : bool :=
  negb (is_terminal (Task.status k))
  || match Task.finished_at k with
     | Some f => dt_gtb f cutoff
     | None => false
     end.

(** [None] is the [OverflowError] of [datetime.now() - timedelta(...)]. *)
Definition cleanup_old_tasks (now : datetime) (tasks : list Task.t) (max_age_days : Z)
  : option (list Task.t * Z) :=
  cutoff ← sub_days now max_age_days;
  let kept := filter (λ k, cleanup_keeps cutoff k = true) tasks in
  let removed := Z.of_nat (length tasks) - Z.of_nat (length kept) in
  Some (if 0 <? removed then kept else tasks, removed).

End QueueManager.

(** A call that returns or raises; [message] is [str(e)]. *)
Inductive outcome (A : Type) :=
| Returns (a : A)
| Raises (message : string).
Arguments Returns {A} a.
Arguments Raises {A} message.

(** ** The daemon's surroundings *)

Inductive spawn_result :=
| SpawnOk (child_pid : Z)          (* [subprocess.Popen] returned *)
| SpawnErr (reason : string).      (* an exception; [reason] is [str(e)] *)

Inductive killpg_result :=
| KillOk | KillNoProcess (* [ProcessLookupError] *)
| KillNotPermitted (* [PermissionError] *) | KillOtherError.

(** What one operation of the daemon observes outside of the store.
    Oracles about a task are indexed by its id, so that two tasks handled
    by the same tick may see different times and device states. *)
Record Env := {
  now : string -> datetime;              (* [datetime.now()] *)
  poll : Z -> option Z;                  (* [Popen.poll()] of the child [pid] *)
  alive : Z -> bool;                     (* [os.kill(pid, 0)] does not raise *)
  spawn : Task.t -> string -> spawn_result;  (* [Popen] with [CUDA_VISIBLE_DEVICES] *)
  killpg : Z -> killpg_result;           (* [os.killpg(os.getpgid(pid), SIGTERM)] *)
  nvml : string -> Nvml
}.

(** The log files, as [get_log_content] sees them. *)
Record Files := {
  path_exists : string -> bool;                  (* [Path(p).exists()] *)
  readlines : string -> outcome (list string)    (* [open(p).readlines()] *)
}.

Record Config := {
  logs_dir : string;
  max_concurrent_tasks : Z
}.

(** ** [task_runner.py]

    [running_processes] maps a task id to the pid of its [Popen] handle. *)

Module TaskRunner.

Definition log_path (cfg : Config) (task : Task.t) : string :=
  logs_dir cfg ++ "/task_" ++ Task.id task ++ ".log".

(** [",".join(map(str, gpu_ids))] *)
Definition cuda_visible_devices (gpu_ids : list Z) : string :=
  String.concat "," (pretty <$> gpu_ids).

Definition start_task (cfg : Config) (e : Env) (procs : gmap string Z)
    (task : Task.t) (gpu_ids : list Z) : bool * Task.t * gmap string Z :=
  let task := Task.with_log_file (log_path cfg task) task in
  match spawn e task (cuda_visible_devices gpu_ids) with
  | SpawnOk p =>
      let task := Task.with_pid (Some p) task in
      let task := Task.with_assigned_gpus gpu_ids task in
      let task := Task.with_status RUNNING task in
      let task := Task.with_started_at (Some (now e (Task.id task))) task in
      (true, task, <[Task.id task := p]> procs)
  | SpawnErr reason =>
      let task := Task.with_status FAILED task in
      let task := Task.with_error_message reason task in
      let task := Task.with_finished_at (Some (now e (Task.id task))) task in
      (false, task, procs)
  end.

Definition check_task (e : Env) (procs : gmap string Z) (task : Task.t)
  : option Z * gmap string Z :=
  match procs !! Task.id task with
  | Some p =>
      match poll e p with
      | Some exit_code => (Some exit_code, delete (Task.id task) procs)
      | None => (None, procs)
      end
  | None =>
      match Task.pid task with
      | Some p =>
          if p =? 0 then (Some (-1), procs)
          else if alive e p then (None, procs)
          else (Some (-1), procs)
      | None => (Some (-1), procs)
      end
  end.

Definition kill_task (e : Env) (procs : gmap string Z) (task : Task.t)
  : bool * gmap string Z :=
  match procs !! Task.id task with
  | Some p =>
      match killpg e p with
      | KillOk | KillNoProcess => (true, delete (Task.id task) procs)
      | KillNotPermitted | KillOtherError => (false, procs)
      end
  | None =>
      match Task.pid task with
      | Some p =>
          if p =? 0 then (false, procs)
          else match killpg e p with
               | KillOk => (true, procs)
               | _ => (false, procs)
               end
      | None => (false, procs)
      end
  end.

(** [lines[-tail:]] for [tail > 0]. *)
Definition last_lines (tail : Z) (lines : list string) : list string :=
  drop (length lines - Z.to_nat tail) lines.

Definition get_log_content (fs : Files) (task : Task.t) (tail : Z) (follow : bool)
  : string :=
  if String.eqb (Task.log_file task) "" then "No log file available"
  else if negb (path_exists fs (Task.log_file task)) then "Log file not found"
  else
    match readlines fs (Task.log_file task) with
    | Returns lines =>
        String.concat "" (if 0 <? tail then last_lines tail lines else lines)
    | Raises m => "Error reading log: " ++ m
    end.

(** [cleanup]: every tracked process group is signalled, failures are
    logged, and the table is cleared. *)
Definition cleanup (e : Env) (procs : gmap string Z) : gmap string Z := ∅.

End TaskRunner.

(** ** [scheduler.py] *)

Record World := {
  store : list Task.t;                  (* [tasks.json] *)
  running_processes : gmap string Z     (* [TaskRunner.running_processes] *)
}.

Definition running_count (tasks : list Task.t) : Z :=
  Z.of_nat (length (QueueManager.get_running_tasks tasks)).

Module Scheduler.

(** What [_check_running_tasks] writes into a task whose child exited. *)
Definition reaped (e : Env) (exit_code : Z) (task : Task.t) : Task.t :=
  let task := Task.with_exit_code (Some exit_code) task in
  let task := Task.with_finished_at (Some (now e (Task.id task))) task in
  if exit_code =? 0 then Task.with_status COMPLETED task
  else Task.with_error_message
         ("Process exited with code " ++ pretty exit_code)
         (Task.with_status FAILED task).

(** One iteration of [for task in running_tasks]. *)
Definition check_running_body (e : Env) (w : World) (task : Task.t) : World :=
  let '(exit_code, procs) := TaskRunner.check_task e (running_processes w) task in
  match exit_code with
  | Some c =>
      {| store := QueueManager.update_task (store w) (reaped e c task);
         running_processes := procs |}
  | None => {| store := store w; running_processes := procs |}
  end.

(** The loop over the list read at the start of the phase. *)
Definition check_running_loop (e : Env) (running_tasks : list Task.t) (w : World) : World :=
  fold_left (check_running_body e) running_tasks w.

Definition _check_running_tasks (e : Env) (w : World) : World :=
  check_running_loop e (QueueManager.get_running_tasks (store w)) w.

(** [for task in pending_tasks], with its [break]. *)
Fixpoint schedule_loop (cfg : Config) (e : Env) (pending_tasks : list Task.t)
    (w : World) : World :=
  match pending_tasks with
  | [] => w
  | task :: rest =>
      if max_concurrent_tasks cfg <=? running_count (store w) then w
      else
        let available_gpus :=
          GPUMonitor.check_requirements (nvml e (Task.id task)) (Task.requirements task) in
        if gpus_truthy available_gpus then
          let '(_, task', procs) :=
            TaskRunner.start_task cfg e (running_processes w) task
              (default [] available_gpus) in
          schedule_loop cfg e rest
            {| store := QueueManager.update_task (store w) task';
               running_processes := procs |}
        else schedule_loop cfg e rest w
  end.

Definition _schedule_pending_tasks (cfg : Config) (e : Env) (w : World) : World :=
  if max_concurrent_tasks cfg <=? running_count (store w) then w
  else schedule_loop cfg e (QueueManager.get_pending_tasks (store w)) w.

Definition _tick (cfg : Config) (e : Env) (w : World) : World :=
  _schedule_pending_tasks cfg e (_check_running_tasks e w).

End Scheduler.

(** ** [__main__.py]: the request handlers *)

Module Handlers.

(** [handle_submit], called with the request's parameters as keyword
    arguments.  [new_id] is [str(uuid.uuid4())[:8]] and
    [created] the [datetime.now()] of the [Task] constructor.  [None] is
    the [KeyError] of [params["command"]]; it also stands for parameters
    of other types than the dataclasses declare, which the source stores
    unchecked and the typed record [Task.t] cannot hold: what is proved
    of an accepted request is proved for typed parameters. *)
Definition handle_submit (new_id : string) (created : datetime)
    (params : list (string * pyval)) (w : World) : option (World * string) :=
  ids ← as_opt_int_list (dict_get "gpu_ids" params);
  mem ← as_float (dict_get_default "min_free_memory_gb" (PInt 0) params);
  util ← as_float (dict_get_default "max_util_percent" (PInt 100) params);
  cnt ← as_int (dict_get_default "gpu_count" (PInt 1) params);
  n ← as_str (dict_get_default "name" (PStr "") params);
  c ← dict_item "command" params ≫= as_str;
  wd ← as_str (dict_get_default "working_dir" (PStr "") params);
  ev ← as_str_dict (dict_get_default "env" (PDict []) params);
  p ← as_int (dict_get_default "priority" (PInt 0) params);
  let task :=
    Task.mk new_id n c wd ev (GPURequirement.mk ids mem util cnt)
            PENDING p created None None [] None None "" "" in
  let '(tasks, task_id) := QueueManager.add_task (store w) task in
  Some ({| store := tasks; running_processes := running_processes w |}, task_id).

Record cancel_reply := { cancelled : bool; cancel_error : option string }.

Definition handle_cancel (e : Env) (task_id : string) (w : World)
  : World * cancel_reply :=
  match QueueManager.get_task (store w) task_id with
  | Some task =>
      if has_status RUNNING task then
        let '(_, procs) := TaskRunner.kill_task e (running_processes w) task in
        let task := Task.with_status CANCELLED task in
        let task := Task.with_finished_at (Some (now e task_id)) task in
        ({| store := QueueManager.update_task (store w) task;
            running_processes := procs |},
         {| cancelled := true; cancel_error := None |})
      else
        let '(tasks, success) := QueueManager.cancel_task (now e task_id) (store w) task_id in
        ({| store := tasks; running_processes := running_processes w |},
         {| cancelled := success; cancel_error := None |})
  | None => (w, {| cancelled := false; cancel_error := Some "Task not found" |})
  end.

(** [handle_list(status_filter)]: the value of the ["tasks"] entry. *)
Definition handle_list (status_filter : pyval) (w : World) : list pyval :=
  let tasks := QueueManager.get_all_tasks (store w) in
  let is_all := match status_filter with PStr s => String.eqb s "all" | _ => false end in
  let tasks :=
    if negb is_all then
      filter (λ k, match status_filter with
                   | PStr s => String.eqb (TaskStatus_.value (Task.status k)) s
                   | _ => false
                   end = true) tasks
    else tasks in
  Task.to_dict <$> tasks.

(** [handle_logs(task_id, tail, follow)]: the value of the ["logs"] entry. *)
Definition handle_logs (fs : Files) (task_id : string) (tail : Z) (follow : bool)
    (w : World) : string :=
  match QueueManager.get_task (store w) task_id with
  | None => "Task not found"
  | Some task => TaskRunner.get_log_content fs task tail follow
  end.

End Handlers.

(** ** [server.py]: the request router *)

Record response := {
  success : bool;
  data : option pyval;
  error : option string
}.

Section Server.
(** [repr] of a float is the library's; the router only uses it to print
    an action that is a number. *)
Variable float_repr : Q -> string.

(** The registered handlers.  A handler is applied to the request's
    [params]; [Raises m] is an exception [e] with [str(e) = m]. *)
Variable handlers : list (string * (pyval -> outcome pyval)).

Definition hashable (v : pyval) : bool :=
  match v with PList _ | PDict _ => false | _ => true end.

(** [f"{action}"] for a hashable action. *)
Definition format_action (action : pyval) : string :=
  match action with
  | PStr s => s
  | PInt z => pretty z
  | PBool true => "True"
  | PBool false => "False"
  | PFloat q => float_repr q
  | _ => "None"
  end.

(** [self.handlers[action]] for [action in self.handlers]; the keys are
    strings. *)
Definition find_handler (action : pyval) : option (pyval -> outcome pyval) :=
  match action with
  | PStr s => assoc s handlers
  | _ => None
  end.

Definition _process_request (request : list (string * pyval)) : outcome response :=
  let action := dict_get "action" request in
  let params := dict_get_default "params" (PDict []) request in
  if negb (truthy action) then
    Returns {| success := false; data := None;
               error := Some "Missing 'action' field" |}
  else if negb (hashable action) then
    Raises (match action with
            | PList _ => "unhashable type: 'list'"
            | _ => "unhashable type: 'dict'"
            end)
  else
    match find_handler action with
    | None =>
        Returns {| success := false; data := None;
                   error := Some ("Unknown action: " ++ format_action action)%string |}
    | Some handler =>
        match handler params with
        | Returns result =>
            Returns {| success := true; data := Some result; error := None |}
        | Raises m =>
            Returns {| success := false; data := None; error := Some m |}
        end
    end.
(** What [_handle_connection] read from the socket, after decoding. *)
Inductive received :=
| Decoded (v : pyval)          (* [json.loads] returned *)
| NotJson                      (* [JSONDecodeError] *)
| DecodeError (m : string).    (* another exception of the decoding *)

Definition type_name (v : pyval) : string :=
  match v with
  | PNone => "NoneType" | PBool _ => "bool" | PInt _ => "int" | PFloat _ => "float"
  | PStr _ => "str" | PList _ => "list" | PDict _ => "dict"
  end.

Definition failure (m : string) : response :=
  {| success := false; data := None; error := Some m |}.

(** The response [_handle_connection] sends for a request that is not
    empty: that of [_process_request], ["Invalid JSON"], or the message of
    the exception its outer handler caught. *)
Definition _handle_connection (r : received) : response :=
  match r with
  | NotJson => failure "Invalid JSON"
  | DecodeError m => failure m
  | Decoded (PDict request) =>
      match _process_request request with
      | Returns resp => resp
      | Raises m => failure m
      end
  | Decoded v => failure ("'" ++ type_name v ++ "' object has no attribute 'get'")
  end.

End Server.

(** The names [__main__.py] registers. *)
Definition daemon_actions : list string :=
  ["submit"; "status"; "list"; "cancel"; "logs"].

(** ** The daemon as a transition system

    The operations by which the daemon changes the store: a [submit]
    request, a scheduler tick, a [cancel] request.  (The other requests
    only read.  [remove_task] and [cleanup_old_tasks] have no caller.)
    In [run] each operation is one step: the tick holds the scheduler's
    mutex for its whole length, and a request is served between two
    ticks.  The handlers themselves do not take the mutex and run on the
    connection's thread, so a request can also be served while a tick is
    under way; [reap_with_cancel] below is that case for a cancel
    request. *)

Inductive op :=
| Submit (new_id : string) (created : datetime) (params : list (string * pyval))
| Tick (e : Env)
| Cancel (e : Env) (task_id : string).

Definition run (cfg : Config) (o : op) (w : World) : World :=
  match o with
  | Submit new_id created params =>
      match Handlers.handle_submit new_id created params w with
      | Some (w', _) => w'
      | None => w              (* [KeyError]: nothing is written *)
      end
  | Tick e => Scheduler._tick cfg e w
  | Cancel e task_id => (Handlers.handle_cancel e task_id w).1
  end.

Definition empty_world : World := {| store := []; running_processes := ∅ |}.

Inductive reachable (cfg : Config) : World -> Prop :=
| reachable_empty : reachable cfg empty_world
| reachable_run o w : reachable cfg w -> reachable cfg (run cfg o w).

(** [_check_running_tasks] with a cancel request served inside it:
    the phase reads [running_tasks], its loop runs [n] times, then
    [handle_cancel(task_id)] runs on the connection's thread (observing
    [e_cancel]), and the loop goes on with the rest of the list it read. *)
Definition reap_with_cancel (e e_cancel : Env) (n : nat) (task_id : string)
    (w : World) : World :=
  let running_tasks := QueueManager.get_running_tasks (store w) in
  let w := Scheduler.check_running_loop e (take n running_tasks) w in
  let w := (Handlers.handle_cancel e_cancel task_id w).1 in
  Scheduler.check_running_loop e (drop n running_tasks) w.

(** * Definitions used to state the properties *)

Abbreviation ids tasks := (Task.id <$> tasks).

(** A handler table with the daemon's five actions. *)
Definition registered (h : pyval -> outcome pyval)
  : list (string * (pyval -> outcome pyval)) :=
  (fun a => (a, h)) <$> daemon_actions.

(** The router in the words of the specification: an action that names no
    handler is answered with the error ["Unknown action"]. *)
Definition unknown_action_as_stated : Prop :=
  forall float_repr handlers request (action : string),
    dict_item "action" request = Some (PStr action) ->
    assoc action handlers = None ->
    exists r, _process_request float_repr handlers request = Returns r
              /\ success r = false /\ error r = Some "Unknown action".

(** ** Matching *)

(** A device passes the memory and utilisation bounds. *)
Definition within_bounds (req : GPURequirement.t) (gpu : GPUStatus.t) : bool :=
  negb (Qltb (GPUStatus.free_memory_gb gpu) (GPURequirement.min_free_memory_gb req))
  && negb (Qgtb (inject_Z (GPUStatus.utilization_percent gpu))
                (GPURequirement.max_util_percent req)).

(** The matching algorithm in the words of the specification: a present
    [gpu_ids], empty or not, admits only the listed indices. *)
Definition listed (req : GPURequirement.t) (gpu : GPUStatus.t) : bool :=
  match GPURequirement.gpu_ids req with
  | Some ids => py_in (GPUStatus.index gpu) ids
  | None => true
  end.

Definition spec_match (req : GPURequirement.t) (snapshot : list GPUStatus.t) : list Z :=
  let survivors :=
    filter (λ g, listed req g && within_bounds req g = true) snapshot in
  if GPURequirement.gpu_count req <=? Z.of_nat (length survivors)
  then take (Z.to_nat (GPURequirement.gpu_count req)) (GPUStatus.index <$> survivors)
  else [].

(** [match(req)] agrees with it on every snapshot ("empty" is the empty
    list or [None]). *)
Definition match_as_stated : Prop :=
  forall nv req snapshot,
    GPUMonitor.get_all_gpu_status nv = Some snapshot ->
    default [] (GPUMonitor.check_requirements nv req) = spec_match req snapshot.

(** What the code does: an empty [gpu_ids] restricts nothing. *)
Definition admissible (req : GPURequirement.t) (gpu : GPUStatus.t) : bool :=
  match GPURequirement.gpu_ids req with
  | Some (i :: ids) => py_in (GPUStatus.index gpu) (i :: ids)
  | _ => true
  end.

(** The devices [check_requirements] counts. *)
Definition survivors (req : GPURequirement.t) (snapshot : list GPUStatus.t)
  : list GPUStatus.t :=
  filter (λ g, admissible req g && within_bounds req g = true) snapshot.

(** ** Timestamps of a record *)

(** An optional timestamp is a [datetime] value when present. *)
Definition opt_valid (o : option datetime) : Prop :=
  match o with Some d => dt_valid d | None => True end.

(** ** Order of pending tasks *)

(** Two elements neither of which is smaller than the other. *)
Definition same_key {A} (leb : A -> A -> bool) (a b : A) : Prop :=
  leb a b = true /\ leb b a = true.

#[global] Instance same_key_dec {A} (leb : A -> A -> bool) a b :
  Decision (same_key leb a b).
Proof. unfold same_key. apply _. Defined.

(** [a] is admitted before [b]: strictly higher priority, or the same
    priority and not created later. *)
Definition goes_first (a b : Task.t) : Prop :=
  Task.priority a > Task.priority b
  \/ (Task.priority a = Task.priority b
      /\ dt_compare (Task.created_at a) (Task.created_at b) <> Gt).

(** The two tasks have the same priority and creation time. *)
Definition tied (a b : Task.t) : Prop :=
  same_key pending_key_leb a b.

#[global] Instance tied_dec a b : Decision (tied a b).
Proof. unfold tied, same_key. apply _. Defined.

(** ** Runs of the daemon *)

(** The operation is a submission whose new task gets the id [x]. *)
Definition draws (x : string) (o : op) : Prop :=
  match o with Submit new_id _ _ => new_id = x | _ => False end.

(** What the reap phase makes of a running task, given the process
    table at the start of the phase. *)
Definition reap_outcome (e : Env) (procs : gmap string Z) (task : Task.t) : Task.t :=
  match (TaskRunner.check_task e procs task).1 with
  | Some c => Scheduler.reaped e c task
  | None => task
  end.

(** Id uniqueness in the words of the specification: [add] preserves it
    for whatever task it is given. *)
Definition add_keeps_ids_unique_as_stated : Prop :=
  forall (tasks : list Task.t) (task : Task.t),
    NoDup (ids tasks) -> NoDup (ids (QueueManager.add_task tasks task).1).

(** ** Cleanup *)

(** The cleanup predicate in the words of the specification: terminal, and
    finished strictly before the cutoff. *)
Definition spec_removes (cutoff : datetime) (k : Task.t) : bool :=
  is_terminal (Task.status k)
  && match Task.finished_at k with
     | Some f => dt_ltb f cutoff
     | None => false
     end.

(** [cleanup(days)] removes exactly those records and returns their
    number. *)
Definition cleanup_as_stated : Prop :=
  forall (t : datetime) (tasks : list Task.t) (days : Z) (cutoff : datetime),
    sub_days t days = Some cutoff ->
    QueueManager.cleanup_old_tasks t tasks days
    = Some (filter (λ k, spec_removes cutoff k = false) tasks,
            Z.of_nat (length (filter (λ k, spec_removes cutoff k = true) tasks))).

(** What the code removes: terminal, and [finished_at] missing or not
    after the cutoff. *)
Definition code_removes (cutoff : datetime) (k : Task.t) : bool :=
  is_terminal (Task.status k)
  && match Task.finished_at k with
     | Some f => dt_leb f cutoff
     | None => true
     end.

(** ** Requirements asking for no device *)

(** The edge case in the words of the claim: with [gpu_count <= 0] the
    match is the empty list and the pending task is still pending after
    the tick. *)
Definition zero_count_as_stated : Prop :=
  forall (cfg : Config) (e : Env) (w : World) (i : nat) (task : Task.t),
    NoDup (ids (store w)) ->
    store w !! i = Some task ->
    Task.status task = PENDING ->
    GPURequirement.gpu_count (Task.requirements task) <= 0 ->
    (forall snapshot,
        GPUMonitor.get_all_gpu_status (nvml e (Task.id task)) = Some snapshot ->
        GPUMonitor.check_requirements (nvml e (Task.id task)) (Task.requirements task)
        = Some [])
    /\ store (Scheduler._tick cfg e w) !! i = Some task.

(** ** The life of a record *)

(** The fields a submission fixes. *)
Definition same_submission (k k' : Task.t) : Prop :=
  Task.id k' = Task.id k /\ Task.name k' = Task.name k
  /\ Task.command k' = Task.command k /\ Task.working_dir k' = Task.working_dir k
  /\ Task.env k' = Task.env k /\ Task.requirements k' = Task.requirements k
  /\ Task.priority k' = Task.priority k /\ Task.created_at k' = Task.created_at k.

(** The arrows of the state machine, and staying in a state. *)
Definition transition (s s' : TaskStatus) : bool :=
  match s, s' with
  | PENDING, (PENDING | RUNNING | FAILED | CANCELLED) => true
  | RUNNING, (RUNNING | COMPLETED | FAILED | CANCELLED) => true
  | COMPLETED, COMPLETED | FAILED, FAILED | CANCELLED, CANCELLED => true
  | _, _ => false
  end.

(** What the runtime fields of a record are in each status. *)
Definition record_ok (k : Task.t) : Prop :=
  match Task.status k with
  | PENDING =>
      Task.started_at k = None /\ Task.finished_at k = None /\ Task.pid k = None
      /\ Task.exit_code k = None /\ Task.assigned_gpus k = []
  | RUNNING =>
      is_Some (Task.pid k) /\ Task.assigned_gpus k <> [] /\ is_Some (Task.started_at k)
      /\ Task.finished_at k = None /\ Task.exit_code k = None
  | COMPLETED =>
      Task.exit_code k = Some 0 /\ is_Some (Task.finished_at k)
      /\ is_Some (Task.started_at k)
  | FAILED =>
      is_Some (Task.finished_at k)
      /\ ((exists c, Task.exit_code k = Some c /\ c <> 0
                     /\ Task.error_message k
                        = ("Process exited with code " ++ pretty c)%string
                     /\ is_Some (Task.started_at k))
          \/ (Task.exit_code k = None /\ Task.started_at k = None /\ Task.pid k = None))
  | CANCELLED => is_Some (Task.finished_at k)
  end.

(** The answer of the probe for a task in the tick observed as [e]. *)
Definition probe (e : Env) (u : Task.t) : option (list Z) :=
  GPUMonitor.check_requirements (nvml e (Task.id u)) (Task.requirements u).

(** The record [start_task] makes of [u] with the devices the probe gave. *)
Definition started_from (cfg : Config) (e : Env) (u k' : Task.t) : Prop :=
  exists procs, k' = (TaskRunner.start_task cfg e procs u (default [] (probe e u))).1.2.

(** A response carries data exactly when it reports success, an error
    exactly when it does not. *)
Definition response_ok (r : response) : Prop :=
  if success r then is_Some (data r) /\ error r = None
  else data r = None /\ is_Some (error r).

(** The request [r] is an object whose action names a registered
    handler, and the call of that handler with the request's [params]
    returned [result]. *)
Definition served (handlers : list (string * (pyval -> outcome pyval)))
    (r : received) (result : pyval) : Prop :=
  exists request action handler,
    r = Decoded (PDict request)
    /\ dict_get "action" request = PStr action /\ action <> ""
    /\ assoc action handlers = Some handler
    /\ handler (dict_get_default "params" (PDict []) request) = Returns result.

(** ** Parameters of a submission *)

(** The parameter [key] is absent, or [read] accepts its value: it has
    the type the dataclass field declares. *)
Definition param_typed {A} (read : pyval -> option A) (key : string)
    (params : list (string * pyval)) : Prop :=
  match assoc key params with
  | Some v => is_Some (read v)
  | None => True
  end.

(** The parameters of a [submit] request, other than [command], have the
    types of the fields they fill. *)
Definition submit_typed (params : list (string * pyval)) : Prop :=
  param_typed as_opt_int_list "gpu_ids" params
  /\ param_typed as_float "min_free_memory_gb" params
  /\ param_typed as_float "max_util_percent" params
  /\ param_typed as_int "gpu_count" params
  /\ param_typed as_str "name" params
  /\ param_typed as_str "working_dir" params
  /\ param_typed as_str_dict "env" params
  /\ param_typed as_int "priority" params.

(** ** Sample surroundings for the examples *)

Definition idle_nvml (n : Z) : Nvml :=
  {| nvmlDeviceGetCount := Some n;
     nvmlDevice := fun _ => Some (Build_nvml_device "gpu" 25769803776 0 25165824000 0 40) |}.

(** Every device idle, every spawn succeeds, every polled child has
    exited with [exit] (or still runs), no untracked pid is alive. *)
Definition sample_env (t : datetime) (exit : option Z) (devices : Z) : Env :=
  {| now := fun _ => t;
     poll := fun _ => exit;
     alive := fun _ => false;
     spawn := fun _ _ => SpawnOk 4242;
     killpg := fun _ => KillOk;
     nvml := fun _ => idle_nvml devices |}.

Definition sample_task (i : string) (s : TaskStatus) (prio : Z) (created : datetime)
    (count : Z) : Task.t :=
  Task.mk i "job" "python train.py" "" [] (GPURequirement.mk None 0%Q 100%Q count)
          s prio created None None [] None None "" "".

Definition t0 : datetime := mk_datetime 2024 5 1 12 0 0 0.

Definition t1 : datetime := mk_datetime 2024 5 1 12 0 10 0.

Definition t2 : datetime := mk_datetime 2024 5 1 12 0 20 0.

(** Three submissions into the empty store, limit two. *)
Definition three_submitted : World :=
  run {| logs_dir := "/logs"; max_concurrent_tasks := 2 |}
      (Submit "aaaa0003" t2 [("command", PStr "true")])
    (run {| logs_dir := "/logs"; max_concurrent_tasks := 2 |}
         (Submit "aaaa0002" t1 [("command", PStr "true")])
       (run {| logs_dir := "/logs"; max_concurrent_tasks := 2 |}
            (Submit "aaaa0001" t0 [("command", PStr "true")]) empty_world)).

(** * Properties *)

(** ** Dates *)

Example isoformat_ex1 :
  isoformat (mk_datetime 2024 2 29 7 5 0 0) = "2024-02-29T07:05:00".
Proof. reflexivity. Qed.

Example isoformat_ex2 :
  isoformat (mk_datetime 2024 12 1 23 59 59 1200) = "2024-12-01T23:59:59.001200".
Proof. reflexivity. Qed.

Example fromisoformat_ex :
  fromisoformat "2024-12-01T23:59:59.001200"
  = Some (mk_datetime 2024 12 1 23 59 59 1200).
Proof. reflexivity. Qed.

Example sub_days_ex1 :
  sub_days (mk_datetime 2024 3 1 10 0 0 5) 1 = Some (mk_datetime 2024 2 29 10 0 0 5).
Proof. reflexivity. Qed.

Example sub_days_ex2 :
  sub_days (mk_datetime 2025 1 1 0 0 0 0) 366 = Some (mk_datetime 2024 1 1 0 0 0 0).
Proof. reflexivity. Qed.

Example sub_days_ex3 :
  sub_days (mk_datetime 2023 7 15 0 0 0 0) (-200) = Some (mk_datetime 2024 1 31 0 0 0 0).
Proof. reflexivity. Qed.

(** ** The request router *)

Lemma assoc_dict_get {k d v} : assoc k d = Some v -> dict_get k d = v.
Proof. unfold dict_get. by intros ->. Qed.

(** C9, as stated, fails: the action ["foo"] is answered with
    ["Unknown action: foo"]. *)
Lemma unknown_action_counterexample : ~ unknown_action_as_stated.
Proof.
  intros H.
  destruct (H (fun _ => "") (registered (fun _ => Returns PNone))
              [("action", PStr "foo")] "foo" eq_refl eq_refl)
    as (r & Hr & _ & He).
  vm_compute in Hr. injection Hr as <-. discriminate He.
Qed.

(** C9, amended: for a request whose action is a non-empty string that
    names no registered handler, the router returns [success = false] and
    the error ["Unknown action: "] followed by the action. *)
Theorem process_request_unknown_action :
  forall float_repr handlers request (action : string),
    dict_item "action" request = Some (PStr action) ->
    action <> "" ->
    assoc action handlers = None ->
    _process_request float_repr handlers request
    = Returns {| success := false; data := None;
                 error := Some ("Unknown action: " ++ action)%string |}.
Proof.
  intros fr hs req a Hget Hne Hnone.
  unfold _process_request. rewrite (assoc_dict_get Hget). simpl.
  destruct (String.eqb_spec a "") as [->|_]; [done|]. simpl.
  by rewrite Hnone.
Qed.

Lemma process_request_unknown_action_witness :
  _process_request (fun _ => "") (registered (fun _ => Returns PNone))
    [("action", PStr "resubmit"); ("params", PDict [])]
  = Returns {| success := false; data := None;
               error := Some "Unknown action: resubmit" |}.
Proof.
  apply (process_request_unknown_action _ _ _ "resubmit"); [reflexivity | discriminate | reflexivity].
Defined.

(** A falsy action (here the empty string) is reported as missing. *)
Example process_request_empty_action :
  _process_request (fun _ => "") [] [("action", PStr "")]
  = Returns {| success := false; data := None;
               error := Some "Missing 'action' field" |}.
Proof. reflexivity. Qed.

(** ** Matching requirements against the devices *)

Section Matching.
Import GPUMonitor.

(** The two comparisons are those of the rationals. *)
Lemma Qltb_spec a b : Qltb a b = true <-> (a < b)%Q.
Proof.
  unfold Qltb. rewrite negb_true_iff, <- not_true_iff_false, Qle_bool_iff.
  split; [apply Qnot_le_lt | apply Qlt_not_le].
Qed.

Lemma within_bounds_spec req gpu :
  within_bounds req gpu = true
  <-> ~ (GPUStatus.free_memory_gb gpu < GPURequirement.min_free_memory_gb req)%Q
      /\ ~ (GPURequirement.max_util_percent req
             < inject_Z (GPUStatus.utilization_percent gpu))%Q.
Proof.
  unfold within_bounds, Qgtb. rewrite andb_true_iff, !negb_true_iff.
  rewrite <- !not_true_iff_false, !Qltb_spec. done.
Qed.

Lemma candidates_cons req g l :
  candidates req (g :: l)
  = if admissible req g && within_bounds req g
    then GPUStatus.index g :: candidates req l else candidates req l.
Proof.
  cbn [candidates]. unfold admissible, within_bounds.
  destruct (GPURequirement.gpu_ids req) as [[|i ids]|]; cbn [negb andb];
    repeat (match goal with
            | |- context [py_in ?a ?b] => destruct (py_in a b)
            | |- context [Qltb ?a ?b] => destruct (Qltb a b)
            | |- context [Qgtb ?a ?b] => destruct (Qgtb a b)
            end; cbn [negb andb]); reflexivity.
Qed.

Lemma candidates_survivors req snapshot :
  candidates req snapshot = GPUStatus.index <$> survivors req snapshot.
Proof.
  unfold survivors. induction snapshot as [|g l IH]; [done|].
  rewrite candidates_cons, filter_cons.
  destruct (admissible req g && within_bounds req g); case_decide; try done.
  cbn. by rewrite IH.
Qed.

Lemma get_gpu_status_index nv i g :
  get_gpu_status nv i = Some g -> GPUStatus.index g = i.
Proof.
  unfold get_gpu_status. destruct (nvmlDevice nv i); [|done].
  cbn. by intros [= <-].
Qed.

Lemma mapM_get_gpu_status_index nv l snapshot :
  mapM (get_gpu_status nv) l = Some snapshot -> GPUStatus.index <$> snapshot = l.
Proof.
  intros H. apply mapM_Some_1 in H.
  induction H as [|i g l s Hg _ IH]; [done|].
  cbn. by rewrite (get_gpu_status_index _ _ _ Hg), IH.
Qed.

(** The snapshot lists the devices [0 .. count-1] in that order. *)
Lemma get_all_gpu_status_index nv snapshot :
  get_all_gpu_status nv = Some snapshot ->
  GPUStatus.index <$> snapshot = seqZ 0 (get_gpu_count nv).
Proof. apply mapM_get_gpu_status_index. Qed.

Lemma slice_to_nonneg {A} n (l : list A) : 0 <= n -> slice_to n l = take (Z.to_nat n) l.
Proof. intros H. unfold slice_to. by rewrite (proj2 (Z.leb_le 0 n) H). Qed.

End Matching.

(** C3, as stated, fails on [gpu_ids = []]: the code takes the empty list
    for "any device" and returns device 0, the specification's reading
    admits no device. *)
Lemma match_counterexample : ~ match_as_stated.
Proof.
  intros H.
  pose (nv := {| nvmlDeviceGetCount := Some 1;
                 nvmlDevice := fun _ => Some (Build_nvml_device "gpu" 25769803776 0 25165824000 0 40) |}).
  specialize (H nv (GPURequirement.mk (Some []) 0%Q 100%Q 1) _ eq_refl).
  vm_compute in H. discriminate H.
Qed.

(** C3, amended: [gpu_ids] restricts the devices only when it is present
    and not empty.  For [gpu_count >= 0], [check_requirements] keeps the
    devices that are admissible and within the memory and utilisation
    bounds, and returns the first [gpu_count] of their indices when at
    least [gpu_count] are left, [None] otherwise; the snapshot, hence the
    result, is in device-index order. *)
Theorem check_requirements_match :
  forall nv req snapshot,
    GPUMonitor.get_all_gpu_status nv = Some snapshot ->
    0 <= GPURequirement.gpu_count req ->
    GPUMonitor.check_requirements nv req
    = (if GPURequirement.gpu_count req <=? Z.of_nat (length (survivors req snapshot))
       then Some (take (Z.to_nat (GPURequirement.gpu_count req))
                       (GPUStatus.index <$> survivors req snapshot))
       else None)
    /\ GPUStatus.index <$> snapshot = seqZ 0 (GPUMonitor.get_gpu_count nv).
Proof.
  intros nv req snapshot Hs Hc. split; [|by apply get_all_gpu_status_index].
  unfold GPUMonitor.check_requirements, GPUMonitor.select. rewrite Hs.
  rewrite candidates_survivors, length_fmap.
  by rewrite slice_to_nonneg.
Qed.

Lemma check_requirements_match_witness :
  let nv := {| nvmlDeviceGetCount := Some 3;
               nvmlDevice := fun i =>
                 Some (Build_nvml_device "gpu" 25769803776 0
                         (if i =? 1 then 1048576 else 25165824000) 0 40) |} in
  GPUMonitor.check_requirements nv (GPURequirement.mk (Some [2; 1]) 4%Q 50%Q 1) = Some [2].
Proof.
  intros nv.
  destruct (check_requirements_match nv (GPURequirement.mk (Some [2; 1]) 4%Q 50%Q 1)
              (default [] (GPUMonitor.get_all_gpu_status nv)) eq_refl) as [H _].
  - vm_compute. discriminate.
  - rewrite H. reflexivity.
Defined.

(** ** Serialisation round trip *)

Section IsoFormat.

Lemma digit_val_digit_char d : 0 <= d < 10 -> digit_val (digit_char d) = Some d.
Proof.
  intros Hd. unfold digit_val, digit_char.
  rewrite nat_ascii_embedding by lia.
  replace (Z.of_nat (48 + Z.to_nat d)) with (48 + d) by lia.
  destruct (Z.leb_spec 48 (48 + d)); [|lia].
  destruct (Z.leb_spec (48 + d) 57); [|lia].
  cbn. f_equal. lia.
Qed.

Lemma parse_digits_app acc l c :
  parse_digits acc (l ++ [c])
  = a ← parse_digits acc l; d ← digit_val c; Some (a * 10 + d).
Proof.
  revert acc. induction l as [|x l IH]; intros acc; cbn.
  - by destruct (digit_val c).
  - destruct (digit_val x); [apply IH | done].
Qed.

Lemma parse_digits_pad k v acc :
  0 <= v < 10 ^ Z.of_nat k -> parse_digits acc (pad k v) = Some (acc * 10 ^ Z.of_nat k + v).
Proof.
  revert v. induction k as [|k IH]; intros v Hv.
  - cbn in *. f_equal. lia.
  - cbn [pad]. rewrite parse_digits_app.
    rewrite Nat2Z.inj_succ, Z.pow_succ_r in * by lia.
    rewrite IH by (split; [apply Z.div_pos | apply Z.div_lt_upper_bound]; lia).
    cbn. rewrite digit_val_digit_char by (apply Z.mod_pos_bound; lia).
    cbn. f_equal. pose proof (Z.div_mod v 10 ltac:(lia)). lia.
Qed.

Lemma fromisoformat_chars_unfold y m d h n s rest :
  fromisoformat_chars
    (pad 4 y ++ ["-"%char] ++ pad 2 m ++ ["-"%char] ++ pad 2 d ++ ["T"%char] ++
     pad 2 h ++ [":"%char] ++ pad 2 n ++ [":"%char] ++ pad 2 s ++ rest)
  = (y' ← parse_digits 0 (pad 4 y);
     m' ← parse_digits 0 (pad 2 m);
     d' ← parse_digits 0 (pad 2 d);
     h' ← parse_digits 0 (pad 2 h);
     n' ← parse_digits 0 (pad 2 n);
     s' ← parse_digits 0 (pad 2 s);
     us ← parse_fraction rest;
     let r := mk_datetime y' m' d' h' n' s' us in
     if dt_validb r then Some r else None).
Proof. reflexivity. Qed.

Lemma parse_fraction_pad us :
  0 <= us <= 999999 ->
  parse_fraction (if us =? 0 then [] else "."%char :: pad 6 us) = Some us.
Proof.
  intros Hus. destruct (Z.eqb_spec us 0) as [->|Hne]; [done|].
  change (parse_fraction ("."%char :: pad 6 us)) with (parse_digits 0 (pad 6 us)).
  rewrite parse_digits_pad by (cbn; lia). f_equal.
Qed.

Lemma days_in_month_le y m : days_in_month y m <= 31.
Proof.
  unfold days_in_month.
  repeat match goal with |- context [if ?b then _ else _] => destruct b end; lia.
Qed.

Lemma fromisoformat_isoformat d :
  dt_valid d -> fromisoformat (isoformat d) = Some d.
Proof.
  intros Hv. unfold fromisoformat, isoformat.
  rewrite list_ascii_of_string_of_list_ascii.
  unfold isoformat_chars. rewrite fromisoformat_chars_unfold.
  pose proof Hv as Hv'. unfold dt_valid, dt_validb in Hv'.
  repeat (apply andb_prop in Hv' as [Hv' ?]).
  repeat match goal with H : (_ <=? _) = true |- _ => apply Z.leb_le in H end.
  pose proof (days_in_month_le (year d) (month d)).
  rewrite !parse_digits_pad by (cbn; lia).
  rewrite parse_fraction_pad by lia.
  rewrite !Z.mul_0_l, !Z.add_0_l. cbn [mbind option_bind].
  destruct d as [y m dd h n s us]. unfold dt_valid in Hv.
  cbn [year month day hour minute second microsecond]. by rewrite Hv.
Qed.

Lemma isoformat_truthy d : truthy (PStr (isoformat d)) = true.
Proof. reflexivity. Qed.

End IsoFormat.

Section RoundTrip.

Lemma as_int_list_of_int_list l : as_int_list (of_int_list l) = Some l.
Proof.
  unfold as_int_list, of_int_list. apply mapM_Some.
  induction l; constructor; done.
Qed.

Lemma as_opt_int_list_of o :
  as_opt_int_list (match o with Some l => of_int_list l | None => PNone end) = Some o.
Proof.
  destruct o as [l|]; [|done].
  pose proof (as_int_list_of_int_list l) as H. unfold as_int_list, of_int_list in H.
  cbn. by rewrite H.
Qed.

Lemma as_str_dict_of_str_dict e : as_str_dict (of_str_dict e) = Some e.
Proof.
  unfold as_str_dict, of_str_dict. apply mapM_Some.
  induction e as [|[k v] e IH]; constructor; done.
Qed.

Lemma as_opt_int_of_opt_int o : as_opt_int (of_opt_int o) = Some o.
Proof. by destruct o. Qed.

Lemma of_value_value s : TaskStatus_.of_value (PStr (TaskStatus_.value s)) = Some s.
Proof. by destruct s. Qed.

Lemma requirement_roundtrip r :
  GPURequirement.from_dict (GPURequirement.to_dict r) = Some r.
Proof.
  destruct r as [ids mem util cnt].
  unfold GPURequirement.from_dict, GPURequirement.to_dict.
  cbn [GPURequirement.gpu_ids GPURequirement.min_free_memory_gb
       GPURequirement.max_util_percent GPURequirement.gpu_count].
  change (dict_get "gpu_ids" _) with
    (match ids with Some l => of_int_list l | None => PNone end).
  rewrite as_opt_int_list_of. reflexivity.
Qed.

Lemma opt_datetime_roundtrip key d o :
  opt_valid o ->
  assoc key d = Some (Task.of_opt_datetime o) ->
  Task.opt_datetime_item key d = Some o.
Proof.
  intros Hv Hk. unfold Task.opt_datetime_item, dict_item, dict_get. rewrite Hk.
  destruct o as [dt|]; [|done].
  cbn -[isoformat fromisoformat truthy].
  rewrite isoformat_truthy. cbn -[isoformat fromisoformat].
  by rewrite fromisoformat_isoformat.
Qed.

End RoundTrip.

(** C6: a task whose timestamps are [datetime] values is recovered from
    its dictionary form, field by field, whatever the time of reloading. *)
Theorem task_dict_roundtrip :
  forall (now : datetime) (k : Task.t),
    dt_valid (Task.created_at k) ->
    opt_valid (Task.started_at k) ->
    opt_valid (Task.finished_at k) ->
    Task.from_dict now (Task.to_dict k) = Some k.
Proof.
  intros now k Hc Hs Hf. destruct k; cbn in Hc, Hs, Hf.
  unfold Task.from_dict, Task.to_dict.
  cbn [Task.id Task.name Task.command Task.working_dir Task.env Task.requirements
       Task.status Task.priority Task.created_at Task.started_at Task.finished_at
       Task.assigned_gpus Task.pid Task.exit_code Task.error_message Task.log_file].
  rewrite (opt_datetime_roundtrip "created_at" _ (Some created_at))
    by first [exact Hc | reflexivity].
  rewrite (opt_datetime_roundtrip "started_at" _ started_at)
    by first [exact Hs | reflexivity].
  rewrite (opt_datetime_roundtrip "finished_at" _ finished_at)
    by first [exact Hf | reflexivity].
  change (dict_get_default "env" _ _) with (of_str_dict env).
  change (dict_get_default "requirements" _ _) with (GPURequirement.to_dict requirements).
  change (dict_get_default "status" _ _) with (PStr (TaskStatus_.value status)).
  change (dict_get_default "assigned_gpus" _ _) with (of_int_list assigned_gpus).
  change (dict_get "pid" _) with (of_opt_int pid).
  change (dict_get "exit_code" _) with (of_opt_int exit_code).
  rewrite as_str_dict_of_str_dict, requirement_roundtrip, of_value_value,
    as_int_list_of_int_list, !as_opt_int_of_opt_int.
  reflexivity.
Qed.

Lemma task_dict_roundtrip_witness :
  let k := Task.mk "1a2b3c4d" "train" "python train.py" "/work" [("SEED", "7")]
             (GPURequirement.mk (Some [0; 1]) 8%Q 50%Q 2) RUNNING 5
             (mk_datetime 2024 2 29 23 59 59 0)
             (Some (mk_datetime 2024 3 1 0 0 0 250000)) None
             [0; 1] (Some 4242) None "" "/logs/task_1a2b3c4d.log" in
  Task.from_dict (mk_datetime 2030 1 1 0 0 0 0) (Task.to_dict k) = Some k.
Proof.
  intros k. apply (task_dict_roundtrip _ k); [reflexivity | reflexivity | exact I].
Defined.

(** The store file: [_load_tasks] gives back what [_save_tasks] wrote when
    each record survives the round trip. *)
Lemma load_save_tasks now tasks :
  Forall (fun k => Task.from_dict now (Task.to_dict k) = Some k) tasks ->
  QueueManager._load_tasks now (Task.to_dict <$> tasks) = Some tasks.
Proof.
  intros H. unfold QueueManager._load_tasks. apply mapM_Some.
  induction H; constructor; done.
Qed.

(** ** The task store *)

Section Store.
Import QueueManager.
Implicit Types (tasks : list Task.t) (task k u : Task.t).

Lemma update_task_ids tasks task : ids (update_task tasks task) = ids tasks.
Proof.
  induction tasks as [|k l IH]; [done|]. cbn.
  destruct (String.eqb_spec (Task.id k) (Task.id task)) as [He|_]; cbn.
  - by rewrite He.
  - by rewrite IH.
Qed.

Lemma update_task_length tasks task : length (update_task tasks task) = length tasks.
Proof. rewrite <- (length_fmap Task.id), update_task_ids. apply length_fmap. Qed.

(** A record with another id stays where it is. *)
Lemma update_task_lookup_ne tasks task i k :
  tasks !! i = Some k -> Task.id k <> Task.id task ->
  update_task tasks task !! i = Some k.
Proof.
  revert i. induction tasks as [|k' l IH]; intros i Hi Hne; [done|]. cbn.
  destruct (String.eqb_spec (Task.id k') (Task.id task)) as [He|_].
  - destruct i; cbn in *; [congruence | done].
  - destruct i; cbn in *; [done | by apply IH].
Qed.

(** Every record of the result is a record of the store or the new one,
    put in the place of a record with its id. *)
Lemma update_task_lookup_inv tasks task i k :
  update_task tasks task !! i = Some k ->
  tasks !! i = Some k
  \/ (k = task /\ exists k', tasks !! i = Some k' /\ Task.id k' = Task.id task).
Proof.
  revert i. induction tasks as [|k' l IH]; intros i Hi; [done|]. cbn in Hi.
  destruct (String.eqb_spec (Task.id k') (Task.id task)) as [He|_].
  - destruct i; cbn in *; [|by left]. right. split; [congruence|]. eauto.
  - destruct i; cbn in *; [by left | by apply IH].
Qed.

Lemma unique_ids_eq tasks i j k u :
  NoDup (ids tasks) -> tasks !! i = Some k -> tasks !! j = Some u ->
  Task.id k = Task.id u -> i = j.
Proof.
  intros Hnd Hi Hj He.
  apply (NoDup_lookup _ _ _ (Task.id k) Hnd); rewrite list_lookup_fmap.
  - by rewrite Hi.
  - rewrite Hj. cbn. by rewrite He.
Qed.

Lemma unique_ids_elem tasks k u :
  NoDup (ids tasks) -> k ∈ tasks -> u ∈ tasks -> Task.id k = Task.id u -> k = u.
Proof.
  intros Hnd [i Hi]%list_elem_of_lookup [j Hj]%list_elem_of_lookup He.
  pose proof (unique_ids_eq _ _ _ _ _ Hnd Hi Hj He) as ->. congruence.
Qed.

(** With unique ids, the record carrying the id is the one replaced. *)
Lemma update_task_lookup_eq tasks task i k :
  NoDup (ids tasks) -> tasks !! i = Some k -> Task.id k = Task.id task ->
  update_task tasks task !! i = Some task.
Proof.
  revert i. induction tasks as [|k' l IH]; intros i Hnd Hi He; [done|]. cbn.
  destruct (String.eqb_spec (Task.id k') (Task.id task)) as [He'|Hne].
  - assert (i = 0%nat) as ->; [|done].
    apply (unique_ids_eq (k' :: l) i 0%nat k k' Hnd Hi eq_refl). congruence.
  - destruct i; cbn in *; [congruence|].
    apply IH; [by apply NoDup_cons in Hnd as [_ ?] | done | done].
Qed.

Lemma get_task_id tasks x k : get_task tasks x = Some k -> Task.id k = x.
Proof.
  induction tasks as [|k' l IH]; [done|]. cbn.
  destruct (String.eqb_spec (Task.id k') x); [by intros [= <-] | done].
Qed.

Lemma get_task_elem tasks x k : get_task tasks x = Some k -> k ∈ tasks.
Proof.
  induction tasks as [|k' l IH]; [done|]. cbn.
  destruct (String.eqb (Task.id k') x).
  - intros [= <-]. left.
  - intros H. right. by apply IH.
Qed.

Lemma get_task_None tasks x : get_task tasks x = None <-> x ∉ ids tasks.
Proof.
  induction tasks as [|k' l IH]; cbn.
  - split; [intros _; apply not_elem_of_nil | done].
  - rewrite not_elem_of_cons.
    destruct (String.eqb_spec (Task.id k') x) as [He|Hne].
    + split; [done | intros [? _]; congruence].
    + rewrite IH. split; [intros H; split; [congruence | done] | by intros [_ H]].
Qed.

(** Reading an id gives the same record in any store that has the same
    ids in the same places and the same records under that id. *)
Lemma get_task_stable tasks tasks' x k :
  get_task tasks x = Some k ->
  (forall i u, tasks !! i = Some u ->
     exists u', tasks' !! i = Some u' /\ Task.id u' = Task.id u
                /\ (Task.id u = x -> u' = u)) ->
  get_task tasks' x = Some k.
Proof.
  revert tasks'. induction tasks as [|k' l IH]; intros tasks' Hg Hs; [done|].
  destruct (Hs 0%nat k' eq_refl) as (u' & Hu' & Hid & Hsame).
  destruct tasks' as [|k'' l']; [done|]. cbn in Hu'. injection Hu' as ->.
  cbn in *. rewrite Hid.
  destruct (String.eqb_spec (Task.id k') x) as [He|_].
  - by rewrite (Hsame He).
  - apply IH; [done|]. intros i u Hi. apply (Hs (S i) u Hi).
Qed.





End Store.

(** ** The order of pending tasks *)

Section LexOrder.

Lemma lex_compare_antisym a b : lex_compare b a = CompOpp (lex_compare a b).
Proof.
  revert b. induction a as [|x a IH]; intros [|y b]; cbn; try done.
  rewrite (Z.compare_antisym x y).
  destruct (x ?= y); cbn; [apply IH | done | done].
Qed.

Lemma lex_compare_le_trans a b c :
  lex_compare a b <> Gt -> lex_compare b c <> Gt -> lex_compare a c <> Gt.
Proof.
  revert b c. induction a as [|x a IH]; intros [|y b] [|z c]; cbn; try done.
  destruct (Z.compare_spec x y), (Z.compare_spec y z); try done; intros Hab Hbc.
  - subst. rewrite Z.compare_refl. by apply (IH b).
  - subst. by rewrite (proj2 (Z.compare_lt_iff y z)).
  - subst. by rewrite (proj2 (Z.compare_lt_iff x z)).
  - by rewrite (proj2 (Z.compare_lt_iff x z)) by lia.
Qed.

Lemma dt_leb_total a b : dt_leb a b = false -> dt_leb b a = true.
Proof.
  unfold dt_leb, dt_compare. rewrite (lex_compare_antisym (dt_fields a)).
  by destruct (lex_compare _ _).
Qed.

Lemma dt_leb_trans a b c : dt_leb a b = true -> dt_leb b c = true -> dt_leb a c = true.
Proof.
  unfold dt_leb, dt_compare. intros Hab Hbc.
  pose proof (lex_compare_le_trans (dt_fields a) (dt_fields b) (dt_fields c)) as H.
  destruct (lex_compare (dt_fields a) (dt_fields b)),
           (lex_compare (dt_fields b) (dt_fields c)),
           (lex_compare (dt_fields a) (dt_fields c)); try done; by destruct H.
Qed.

(** [f > c] is the negation of [f <= c]. *)
Lemma dt_gtb_leb f c : dt_gtb f c = negb (dt_leb f c).
Proof.
  unfold dt_gtb, dt_ltb, dt_leb, dt_compare.
  rewrite (lex_compare_antisym (dt_fields f)).
  by destruct (lex_compare _ _).
Qed.

Lemma pending_key_leb_spec a b :
  pending_key_leb a b = true
  <-> Task.priority a > Task.priority b
      \/ (Task.priority a = Task.priority b
          /\ dt_leb (Task.created_at a) (Task.created_at b) = true).
Proof.
  unfold pending_key_leb.
  destruct (Z.compare_spec (- Task.priority a) (- Task.priority b)); split;
    try done; try lia; intros H'; try (right; split; [lia | done]);
    try (left; lia); destruct H' as [?|[? ?]]; try lia; done.
Qed.

Lemma pending_key_leb_total a b :
  pending_key_leb a b = false -> pending_key_leb b a = true.
Proof.
  intros H. apply pending_key_leb_spec.
  destruct (Z.lt_trichotomy (Task.priority a) (Task.priority b)) as [Hlt|[He|Hgt]].
  - left. lia.
  - right. split; [done|]. apply dt_leb_total.
    destruct (dt_leb (Task.created_at a) (Task.created_at b)) eqn:E; [|done].
    rewrite (proj2 (pending_key_leb_spec a b)) in H; [done | by right].
  - rewrite (proj2 (pending_key_leb_spec a b)) in H; [done | left; lia].
Qed.

Lemma pending_key_leb_trans a b c :
  pending_key_leb a b = true -> pending_key_leb b c = true ->
  pending_key_leb a c = true.
Proof.
  rewrite !pending_key_leb_spec. intros [?|[? Hab]] [?|[? Hbc]].
  - left; lia.
  - left; lia.
  - left; lia.
  - right. split; [lia|]. by apply (dt_leb_trans _ (Task.created_at b)).
Qed.

End LexOrder.

Section SortedFacts.
Context {A : Type} (leb : A -> A -> bool).
Hypothesis leb_total : forall a b, leb a b = false -> leb b a = true.
Hypothesis leb_trans : forall a b c, leb a b = true -> leb b c = true -> leb a c = true.

Lemma insert_sorted_perm x l : insert_sorted leb x l ≡ₚ x :: l.
Proof.
  induction l as [|y l IH]; cbn; [done|].
  destruct (leb x y); [done|]. rewrite IH. apply Permutation_swap.
Qed.

Lemma sorted_perm l : sorted leb l ≡ₚ l.
Proof.
  induction l as [|x l IH]; cbn; [done|].
  by rewrite insert_sorted_perm, IH.
Qed.

Lemma insert_sorted_StronglySorted x l :
  StronglySorted (fun a b => leb a b = true) l ->
  StronglySorted (fun a b => leb a b = true) (insert_sorted leb x l).
Proof.
  induction 1 as [|y l Hl IH Hy]; cbn; [repeat constructor|].
  destruct (leb x y) eqn:E.
  - constructor; [by constructor|]. constructor; [done|].
    eapply Forall_impl; [exact Hy|]. intros z Hz. by apply (leb_trans x y z).
  - constructor; [done|].
    rewrite (insert_sorted_perm x l). constructor; [by apply leb_total | done].
Qed.

Lemma sorted_StronglySorted l :
  StronglySorted (fun a b => leb a b = true) (sorted leb l).
Proof.
  induction l as [|x l IH]; cbn; [constructor|].
  by apply insert_sorted_StronglySorted.
Qed.

Lemma insert_sorted_stable a x l :
  filter (same_key leb a) (insert_sorted leb x l) = filter (same_key leb a) (x :: l).
Proof.
  induction l as [|y l IH]; cbn [insert_sorted]; [done|].
  destruct (leb x y) eqn:E; [done|].
  rewrite filter_cons, IH, !filter_cons.
  destruct (decide (same_key leb a y)) as [[Hay Hya]|Hy]; [|done].
  destruct (decide (same_key leb a x)) as [[Hax Hxa]|Hx]; [|done].
  rewrite (leb_trans x a y Hxa Hay) in E. done.
Qed.

Lemma sorted_stable a l :
  filter (same_key leb a) (sorted leb l) = filter (same_key leb a) l.
Proof.
  induction l as [|x l IH]; cbn [sorted]; [done|].
  by rewrite insert_sorted_stable, !filter_cons, IH.
Qed.

Lemma leb_refl a : leb a a = true.
Proof. destruct (leb a a) eqn:E; [done|]. pose proof (leb_total a a E). congruence. Qed.

Lemma filter_same_key_head a l : filter (same_key leb a) (a :: l) = a :: filter (same_key leb a) l.
Proof. rewrite filter_cons_True; [done|]. split; apply leb_refl. Qed.

(** A sorted list is determined by the order of its elements of equal
    key: sorted, stable arrangements of the same elements coincide. *)
Lemma sorted_stable_unique l1 l2 :
  StronglySorted (fun a b => leb a b = true) l1 ->
  StronglySorted (fun a b => leb a b = true) l2 ->
  (forall a, filter (same_key leb a) l1 = filter (same_key leb a) l2) ->
  l1 = l2.
Proof.
  revert l2. induction l1 as [|x l1 IH]; intros [|y l2] S1 S2 H; [done | | |].
  - specialize (H y). by rewrite filter_same_key_head in H.
  - specialize (H x). by rewrite filter_same_key_head in H.
  - apply StronglySorted_inv in S1 as [S1 Hx], S2 as [S2 Hy].
    assert (x = y) as ->.
    { pose proof (H x) as Hfx. rewrite filter_same_key_head in Hfx.
      destruct (decide (same_key leb x y)) as [Hxy|Hxy].
      { rewrite filter_cons_True in Hfx by done. congruence. }
      rewrite filter_cons_False in Hfx by done.
      assert (x ∈ l2) as Hin2.
      { apply (list_elem_of_filter (same_key leb x) l2 x). rewrite <- Hfx. left. }
      pose proof (H y) as Hfy. rewrite filter_same_key_head in Hfy.
      rewrite filter_cons_False in Hfy by (intros [? ?]; by apply Hxy).
      assert (y ∈ l1) as Hin1.
      { apply (list_elem_of_filter (same_key leb y) l1 y). rewrite Hfy. left. }
      rewrite Forall_forall in Hx, Hy.
      destruct Hxy. split; [by apply Hx | by apply Hy]. }
    f_equal. apply IH; [done | done |]. intros a. specialize (H a).
    rewrite !filter_cons in H. destruct (decide (same_key leb a y)); congruence.
Qed.

End SortedFacts.

Lemma StronglySorted_weaken {A} (R S : A -> A -> Prop) l :
  (forall a b, R a b -> S a b) -> StronglySorted R l -> StronglySorted S l.
Proof.
  intros HRS. induction 1 as [|x l _ IH Hx]; constructor; [done|].
  eapply Forall_impl; [exact Hx | by intros; apply HRS].
Qed.

(** C4: [get_pending_tasks] returns exactly the pending tasks of the store
    (a permutation of them), ordered by [(-priority, created_at)]: every
    task of the result has a strictly higher priority than each task after
    it, or the same priority and a creation time that is not later; tasks
    tied on both keep the order of the store, so the result is determined. *)
Theorem get_pending_tasks_sorted :
  forall tasks : list Task.t,
    QueueManager.get_pending_tasks tasks
      ≡ₚ filter (λ k, Task.status k = PENDING) tasks
    /\ StronglySorted goes_first (QueueManager.get_pending_tasks tasks)
    /\ (forall a, filter (tied a) (QueueManager.get_pending_tasks tasks)
                  = filter (tied a) (filter (λ k, Task.status k = PENDING) tasks)).
Proof.
  intros tasks. unfold QueueManager.get_pending_tasks. split; [|split].
  - apply sorted_perm.
  - eapply StronglySorted_weaken;
      [|apply sorted_StronglySorted;
         [apply pending_key_leb_total | apply pending_key_leb_trans]].
    intros a b H. apply pending_key_leb_spec in H as [?|[? H]]; [by left|right].
    split; [done|]. unfold dt_leb in H. by destruct (dt_compare _ _).
  - intros a. apply sorted_stable, pending_key_leb_trans.
Qed.

(** Any arrangement of the pending tasks that is ordered by the key and
    keeps tied tasks in store order is the one [get_pending_tasks] returns. *)
Lemma pending_order_unique tasks (l : list Task.t) :
  StronglySorted (fun a b => pending_key_leb a b = true) l ->
  (forall a, filter (tied a) l = filter (tied a) (filter (λ k, Task.status k = PENDING) tasks)) ->
  l = QueueManager.get_pending_tasks tasks.
Proof.
  intros Hs Hst.
  apply (sorted_stable_unique pending_key_leb pending_key_leb_total); [done | |].
  - apply sorted_StronglySorted; [apply pending_key_leb_total | apply pending_key_leb_trans].
  - intros a. unfold QueueManager.get_pending_tasks.
    rewrite (sorted_stable pending_key_leb pending_key_leb_trans). apply Hst.
Qed.

Lemma elem_of_get_pending_tasks tasks k :
  k ∈ QueueManager.get_pending_tasks tasks <-> Task.status k = PENDING /\ k ∈ tasks.
Proof.
  unfold QueueManager.get_pending_tasks.
  rewrite (sorted_perm pending_key_leb).
  apply (list_elem_of_filter (λ k, Task.status k = PENDING)).
Qed.

Lemma elem_of_get_running_tasks tasks k :
  k ∈ QueueManager.get_running_tasks tasks <-> Task.status k = RUNNING /\ k ∈ tasks.
Proof. apply (list_elem_of_filter (λ k, Task.status k = RUNNING)). Qed.

(** ** The scheduler: what a tick may touch *)

Section SchedulerFacts.
Import QueueManager Scheduler.
Implicit Types (w : World) (task k u : Task.t) (e : Env) (cfg : Config).

Lemma reaped_id e c k : Task.id (reaped e c k) = Task.id k.
Proof. unfold reaped. by destruct (c =? 0). Qed.

Lemma reaped_status e c k :
  Task.status (reaped e c k) = if c =? 0 then COMPLETED else FAILED.
Proof. unfold reaped. by destruct (c =? 0). Qed.

Lemma start_task_id cfg e procs task g :
  Task.id (TaskRunner.start_task cfg e procs task g).1.2 = Task.id task.
Proof. unfold TaskRunner.start_task. by destruct (spawn e _ _). Qed.

(** The reap loop body either leaves the store alone or stores a record
    that is not running under the id of the visited task. *)
Lemma check_running_body_store e w task :
  store (check_running_body e w task) = store w
  \/ exists k, store (check_running_body e w task) = update_task (store w) k
               /\ Task.id k = Task.id task /\ has_status RUNNING k = false.
Proof.
  unfold check_running_body.
  destruct (TaskRunner.check_task e (running_processes w) task) as [[c|] procs];
    [right | by left].
  eexists; split; [reflexivity|]. split; [apply reaped_id|].
  unfold has_status. rewrite reaped_status. by destruct (c =? 0).
Qed.

(** One admission step: a break or a skip leave the store alone, a spawn
    stores one record under the id of the visited task, and only after
    the running count was found below the limit. *)
Lemma schedule_loop_cons cfg e task rest w :
  schedule_loop cfg e (task :: rest) w = w
  \/ schedule_loop cfg e (task :: rest) w = schedule_loop cfg e rest w
  \/ exists k procs,
       schedule_loop cfg e (task :: rest) w
       = schedule_loop cfg e rest {| store := update_task (store w) k;
                                     running_processes := procs |}
       /\ Task.id k = Task.id task
       /\ running_count (store w) < max_concurrent_tasks cfg
       /\ gpus_truthy (GPUMonitor.check_requirements (nvml e (Task.id task))
                         (Task.requirements task)) = true.
Proof.
  cbn [schedule_loop].
  destruct (Z.leb_spec (max_concurrent_tasks cfg) (running_count (store w)));
    [by left | right].
  destruct (gpus_truthy _) eqn:Hg; [right | by left].
  pose proof (start_task_id cfg e (running_processes w) task
    (default [] (GPUMonitor.check_requirements (nvml e (Task.id task))
                   (Task.requirements task)))) as Hid.
  destruct (TaskRunner.start_task _ _ _ _ _) as [[ok k] procs].
  exists k, procs. done.
Qed.

Lemma check_running_loop_ids e l w :
  ids (store (check_running_loop e l w)) = ids (store w).
Proof.
  revert w. induction l as [|u l IH]; intros w; [done|].
  cbn. unfold check_running_loop in IH. rewrite IH.
  destruct (check_running_body_store e w u) as [->|(k & -> & _)]; [done|].
  apply update_task_ids.
Qed.

Lemma schedule_loop_ids cfg e l w :
  ids (store (schedule_loop cfg e l w)) = ids (store w).
Proof.
  revert w. induction l as [|u l IH]; intros w; [done|].
  destruct (schedule_loop_cons cfg e u l w) as [->|[->|(k & procs & -> & _)]];
    [done | apply IH |].
  rewrite IH. apply update_task_ids.
Qed.

Lemma tick_ids cfg e w : ids (store (_tick cfg e w)) = ids (store w).
Proof.
  unfold _tick, _schedule_pending_tasks, _check_running_tasks.
  destruct (_ <=? _); [|rewrite schedule_loop_ids]; apply check_running_loop_ids.
Qed.

(** Frame of the reap loop: a record whose id no visited task carries. *)
Lemma check_running_loop_frame e l w i k :
  store w !! i = Some k ->
  (forall u, u ∈ l -> Task.id u <> Task.id k) ->
  store (check_running_loop e l w) !! i = Some k.
Proof.
  revert w. induction l as [|u l IH]; intros w Hi Hl; [done|].
  cbn. apply IH; [|intros u' Hu'; apply Hl; by right].
  destruct (check_running_body_store e w u) as [->|(k' & -> & Hid & _)]; [done|].
  apply update_task_lookup_ne; [done|]. rewrite Hid.
  intros He. apply (Hl u); [left | done].
Qed.

(** Frame of the admission loop: a record whose id is only carried by
    visited tasks that find no devices. *)
Lemma schedule_loop_frame cfg e l w i k :
  store w !! i = Some k ->
  (forall u, u ∈ l -> Task.id u = Task.id k ->
     gpus_truthy (GPUMonitor.check_requirements (nvml e (Task.id u))
                    (Task.requirements u)) = false) ->
  store (schedule_loop cfg e l w) !! i = Some k.
Proof.
  revert w. induction l as [|u l IH]; intros w Hi Hl; [done|].
  assert (forall u', u' ∈ l -> Task.id u' = Task.id k ->
     gpus_truthy (GPUMonitor.check_requirements (nvml e (Task.id u'))
                    (Task.requirements u')) = false) as Hl'
    by (intros u' Hu'; apply Hl; by right).
  destruct (schedule_loop_cons cfg e u l w)
    as [->|[->|(k' & procs & -> & Hid & _ & Hg)]]; [done | by apply IH |].
  apply IH; [|done]. cbn. apply update_task_lookup_ne; [done|].
  rewrite Hid. intros He. rewrite (Hl u) in Hg; [done | left | done].
Qed.




End SchedulerFacts.

Section DaemonFacts.
Import QueueManager Scheduler Handlers.
Implicit Types (w : World) (task k u : Task.t) (e : Env) (cfg : Config).

Lemma handle_submit_store new_id created params w w' r :
  handle_submit new_id created params w = Some (w', r) ->
  exists task, store w' = store w ++ [task]
               /\ Task.id task = new_id /\ Task.status task = PENDING.
Proof.
  unfold handle_submit. intros H.
  repeat match type of H with
         | (mbind _ ?x) = _ => destruct x; cbn [mbind option_bind] in H; [|done]
         | (?x ≫= _) = _ => destruct x; cbn [mbind option_bind] in H; [|done]
         end.
  cbn in H. injection H as <- <-. eexists. by split.
Qed.

Lemma cancel_task_store t tasks x :
  (cancel_task t tasks x).1 = tasks
  \/ exists k, (cancel_task t tasks x).1 = update_task tasks k
               /\ Task.id k = x /\ has_status RUNNING k = false
               /\ exists k0, get_task tasks x = Some k0 /\ Task.status k0 = PENDING.
Proof.
  unfold cancel_task. destruct (get_task tasks x) as [k0|] eqn:Hg; [|by left].
  destruct (has_status PENDING k0) eqn:Hp; [right | by left].
  apply bool_decide_eq_true in Hp.
  eexists. split; [reflexivity|]. split; [by apply get_task_id in Hg|].
  split; [done|]. eauto.
Qed.

(** A cancel request leaves the store alone, or stores a record that is
    not running under the requested id, whose record was running or
    pending. *)
Lemma handle_cancel_store e x w :
  store (handle_cancel e x w).1 = store w
  \/ exists k, store (handle_cancel e x w).1 = update_task (store w) k
               /\ Task.id k = x /\ has_status RUNNING k = false
               /\ exists k0, get_task (store w) x = Some k0
                             /\ is_terminal (Task.status k0) = false.
Proof.
  unfold handle_cancel. destruct (get_task (store w) x) as [k0|] eqn:Hg; [|by left].
  destruct (has_status RUNNING k0) eqn:Hr.
  - apply bool_decide_eq_true in Hr.
    right. destruct (TaskRunner.kill_task _ _ _) as [ok procs]. cbn.
    eexists. split; [reflexivity|]. split; [by apply get_task_id in Hg|].
    split; [done|]. exists k0. by rewrite Hr.
  - pose proof (cancel_task_store (now e x) (store w) x) as Hc.
    destruct (cancel_task _ _ _) as [tasks ok]. cbn in *.
    destruct Hc as [->|(k & -> & Hid & Hk & k1 & Hg1 & Hp)]; [by left | right].
    exists k. repeat split; try done. exists k0. split; [done|].
    rewrite Hg in Hg1. injection Hg1 as ->. by rewrite Hp.
Qed.


(** The store after an operation has the old ids in the old places
    (a submission adds one at the end). *)
Lemma run_ids cfg o w :
  ids (store (run cfg o w)) = ids (store w)
  \/ exists new_id created params,
       o = Submit new_id created params
       /\ ids (store (run cfg o w)) = ids (store w) ++ [new_id].
Proof.
  destruct o as [new_id created params|e|e x]; cbn [run].
  - destruct (handle_submit _ _ _ _) as [[w' r]|] eqn:Hs; [right | by left].
    apply handle_submit_store in Hs as (task & -> & <- & _).
    exists (Task.id task), created, params. by rewrite fmap_app.
  - left. apply tick_ids.
  - left. destruct (handle_cancel_store e x w) as [->|(k & -> & _)]; [done|].
    apply update_task_ids.
Qed.

(** The records filed under an id whose records are all terminal are
    not touched by any operation. *)
Lemma run_terminal_frame cfg o w x i k :
  Forall (fun u => Task.id u = x -> is_terminal (Task.status u) = true) (store w) ->
  store w !! i = Some k -> Task.id k = x ->
  store (run cfg o w) !! i = Some k.
Proof.
  intros Hx Hi Hk. rewrite Forall_forall in Hx.
  destruct o as [new_id created params|e|e y]; cbn [run].
  - destruct (handle_submit _ _ _ _) as [[w' r]|] eqn:Hs; [|done].
    apply handle_submit_store in Hs as (task & -> & _).
    by apply lookup_app_l_Some.
  - unfold _tick.
    assert (store (_check_running_tasks e w) !! i = Some k) as Hi1.
    { apply check_running_loop_frame; [done|].
      intros u [Hr Hu]%elem_of_get_running_tasks He.
      specialize (Hx u Hu ltac:(congruence)). by rewrite Hr in Hx. }
    unfold _schedule_pending_tasks. destruct (_ <=? _); [done|].
    apply schedule_loop_frame; [done|].
    intros u [Hp Hu]%elem_of_get_pending_tasks He. exfalso.
    apply list_elem_of_lookup in Hu as [j Hj].
    assert (store w !! j = Some u) as Hj0.
    { assert (Task.id <$> store w !! j = Some (Task.id u)) as Hid.
      { rewrite <- list_lookup_fmap.
        rewrite <- (check_running_loop_ids e (get_running_tasks (store w)) w).
        rewrite list_lookup_fmap. unfold _check_running_tasks in Hj. by rewrite Hj. }
      destruct (store w !! j) as [u0|] eqn:Hu0; [|done].
      cbn in Hid. injection Hid as Hid.
      assert (store (_check_running_tasks e w) !! j = Some u0) as Hj1.
      { apply check_running_loop_frame; [done|].
        intros u' [Hr Hu']%elem_of_get_running_tasks He'.
        specialize (Hx u' Hu' ltac:(congruence)). by rewrite Hr in Hx. }
      congruence. }
    specialize (Hx u ltac:(by eapply list_elem_of_lookup_2) ltac:(congruence)).
    by rewrite Hp in Hx.
  - destruct (handle_cancel_store e y w)
      as [->|(k' & -> & Hid & _ & k0 & Hg & Ht)]; [done|].
    apply update_task_lookup_ne; [done|]. intros He.
    specialize (Hx k0 (get_task_elem _ _ _ Hg)).
    apply get_task_id in Hg. rewrite Hx in Ht; [done | congruence].
Qed.

Lemma run_terminal_get cfg o w x k :
  Forall (fun u => Task.id u = x -> is_terminal (Task.status u) = true) (store w) ->
  get_task (store w) x = Some k ->
  get_task (store (run cfg o w)) x = Some k.
Proof.
  intros Hx Hg. apply (get_task_stable (store w)); [done|].
  intros i u Hi.
  assert (exists u', store (run cfg o w) !! i = Some u' /\ Task.id u' = Task.id u)
    as (u' & Hu' & Hid).
  { assert (ids (store (run cfg o w)) !! i = Some (Task.id u)) as H.
    { destruct (run_ids cfg o w) as [->|(? & ? & ? & _ & ->)].
      - by rewrite list_lookup_fmap, Hi.
      - apply lookup_app_l_Some. by rewrite list_lookup_fmap, Hi. }
    rewrite list_lookup_fmap in H.
    destruct (store (run cfg o w) !! i) as [u'|]; [|done].
    exists u'. split; [done|]. cbn in H. congruence. }
  exists u'. repeat split; [done | done |].
  intros He. rewrite (run_terminal_frame cfg o w x i u Hx Hi He) in Hu'. congruence.
Qed.

End DaemonFacts.

(** ** Terminal statuses are never left *)

(** X22: what holds of terminal statuses when every operation runs as one
    step.  Let every record filed under the id [x] have a terminal status
    (with unique ids: the task [x] is completed, failed or cancelled).
    Then a submission, a whole tick with its reap and admission phases,
    or a cancel request served between two ticks changes none of these
    records, whatever exit codes the tick observes, and reading the id
    [x] returns the same record as before. *)
Theorem terminal_status_monotone :
  forall (cfg : Config) (o : op) (w : World) (x : string),
    Forall (fun u => Task.id u = x -> is_terminal (Task.status u) = true) (store w) ->
    (forall i k, store w !! i = Some k -> Task.id k = x ->
                 store (run cfg o w) !! i = Some k)
    /\ (forall k, QueueManager.get_task (store w) x = Some k ->
                  QueueManager.get_task (store (run cfg o w)) x = Some k).
Proof.
  intros cfg o w x Hx. split.
  - intros i k. by apply run_terminal_frame.
  - intros k. by apply run_terminal_get.
Qed.

(** A cancelled task and a running one; the tick finds every child gone
    and reaps the running task, the cancelled one stays cancelled. *)
Lemma terminal_status_monotone_witness :
  let cancelled_task :=
    Task.with_pid (Some 77) (Task.with_finished_at (Some t1)
      (sample_task "aaaa0001" CANCELLED 0 t0 1)) in
  let w := {| store := [cancelled_task;
                        Task.with_pid (Some 78) (sample_task "aaaa0002" RUNNING 0 t0 1)];
              running_processes := ∅ |} in
  QueueManager.get_task
    (store (run {| logs_dir := "/logs"; max_concurrent_tasks := 4 |}
                (Tick (sample_env t2 (Some 1) 2)) w)) "aaaa0001"
  = Some cancelled_task.
Proof.
  intros cancelled_task w.
  apply (terminal_status_monotone _ _ w "aaaa0001"); [|reflexivity].
  constructor; [intros _; reflexivity|].
  constructor; [intros H; discriminate H | constructor].
Defined.

(** With unique ids the premise is about one record. *)
Corollary terminal_record_kept cfg o w i k :
  NoDup (ids (store w)) -> store w !! i = Some k ->
  is_terminal (Task.status k) = true ->
  store (run cfg o w) !! i = Some k.
Proof.
  intros Hnd Hi Ht. apply (run_terminal_frame cfg o w (Task.id k)); [|done|done].
  apply Forall_forall. intros u Hu He.
  by rewrite (unique_ids_elem (store w) u k Hnd Hu (list_elem_of_lookup_2 _ _ _ Hi) He).
Qed.

(** Along a run of the daemon in which no submission draws the id [x]
    again, the records under [x] stay as they are. *)
Lemma run_terminal_premise cfg o w x :
  ~ draws x o ->
  Forall (fun u => Task.id u = x -> is_terminal (Task.status u) = true) (store w) ->
  Forall (fun u => Task.id u = x -> is_terminal (Task.status u) = true)
         (store (run cfg o w)).
Proof.
  intros Hd Hx. apply Forall_lookup. intros j u Hj He.
  assert (ids (store (run cfg o w)) !! j = Some x) as Hid
    by (by rewrite list_lookup_fmap, Hj; cbn; rewrite He).
  assert (ids (store w) !! j = Some x) as Hid0.
  { destruct (run_ids cfg o w) as [<-|(new_id & ? & ? & -> & Hids)]; [done|].
    rewrite Hids in Hid. apply lookup_app_Some in Hid as [?|[_ Hlast]]; [done|].
    apply list_lookup_singleton_Some in Hlast as [_ ->]. by destruct Hd. }
  rewrite list_lookup_fmap in Hid0.
  destruct (store w !! j) as [u0|] eqn:Hu0; [|done]. cbn in Hid0. injection Hid0 as Hid0.
  rewrite (run_terminal_frame cfg o w x j u0 Hx Hu0 Hid0) in Hj. injection Hj as <-.
  rewrite Forall_lookup in Hx. by apply (Hx j u0).
Qed.

Lemma terminal_forever cfg (os : list op) w x i k :
  Forall (fun o => ~ draws x o) os ->
  Forall (fun u => Task.id u = x -> is_terminal (Task.status u) = true) (store w) ->
  store w !! i = Some k -> Task.id k = x ->
  store (fold_left (fun w o => run cfg o w) os w) !! i = Some k.
Proof.
  intros Hos. revert w. induction Hos as [|o os Ho _ IH]; intros w Hx Hi Hk; [done|].
  cbn. apply IH;
    [by apply run_terminal_premise | by apply (run_terminal_frame cfg o w x) | done].
Qed.

(** ** A cancel request served during the reap phase *)

(** C1: the code leaves a terminal status when a cancel request is served
    while the reap phase is in its loop.  One task is submitted and
    started by a tick.  The next tick reads it as running; before the
    loop reaches it, [handle_cancel] (which takes no mutex) cancels it:
    the request is answered [cancelled = True] and the stored status is
    [cancelled].  The loop then checks the record it read, finds the
    child gone, and [update_task] writes that stale record back: the task
    ends [failed], with exit code -1.  Had the whole cancel come before
    the tick, the task would have stayed [cancelled]. *)
Theorem cancel_during_reap_overwritten :
  let cfg := {| logs_dir := "/logs"; max_concurrent_tasks := 4 |} in
  let w := run cfg (Tick (sample_env t1 None 1))
             (run cfg (Submit "aaaa0001" t0 [("command", PStr "python train.py")])
                  empty_world) in
  let e := sample_env t2 (Some 0) 1 in
  let cancelled := Handlers.handle_cancel e "aaaa0001" w in
  let after := reap_with_cancel e e 0 "aaaa0001" w in
  reachable cfg w
  /\ Task.status <$> store w = [RUNNING]
  /\ cancelled.2 = {| Handlers.cancelled := true; Handlers.cancel_error := None |}
  /\ Task.status <$> store cancelled.1 = [CANCELLED]
  /\ Task.status <$> store after = [FAILED]
  /\ Task.exit_code <$> store after = [Some (-1)]
  /\ Task.error_message <$> store after = ["Process exited with code -1"]
  /\ Task.status <$> store (Scheduler._check_running_tasks e cancelled.1) = [CANCELLED].
Proof.
  intros cfg w e cancelled after.
  split; [do 2 constructor; constructor|].
  repeat split; vm_compute; reflexivity.
Qed.

(** The same status is left when a later submission draws the id of a
    cancelled task again ([add_task] does not look at the ids present):
    the tick starts the new task and [update_task] writes it over the
    first record of that id, the cancelled one. *)
Example redrawn_id_overwrites_cancelled :
  let cfg := {| logs_dir := "/logs"; max_concurrent_tasks := 4 |} in
  let w := run cfg (Cancel (sample_env t1 None 1) "aaaa0001")
             (run cfg (Submit "aaaa0001" t0 [("command", PStr "python train.py")])
                  empty_world) in
  let w' := run cfg (Tick (sample_env t2 None 1))
              (run cfg (Submit "aaaa0001" t1 [("command", PStr "python eval.py")]) w) in
  Task.status <$> store w = [CANCELLED]
  /\ Task.status <$> store w' = [RUNNING; PENDING]
  /\ Task.command <$> store w' = ["python eval.py"; "python eval.py"].
Proof. repeat split; vm_compute; reflexivity. Qed.

(** ** The concurrency limit *)



(** Three admissible tasks and a limit of two: after one tick two run and
    one waits. *)
Example two_of_three_admitted :
  Task.status <$>
    store (run {| logs_dir := "/logs"; max_concurrent_tasks := 2 |}
               (Tick (sample_env t2 None 1)) three_submitted)
  = [RUNNING; RUNNING; PENDING].
Proof. vm_compute. reflexivity. Qed.

(** ** The reap phase *)

Section Reap.
Import QueueManager Scheduler.
Implicit Types (w : World) (task k u : Task.t) (e : Env).

Lemma reap_outcome_id e procs task : Task.id (reap_outcome e procs task) = Task.id task.
Proof. unfold reap_outcome. destruct (_.1); [apply reaped_id | done]. Qed.

(** [check_task] reads the process table at the id of its task only. *)
Lemma check_task_lookup e procs procs' task :
  procs !! Task.id task = procs' !! Task.id task ->
  (TaskRunner.check_task e procs task).1 = (TaskRunner.check_task e procs' task).1.
Proof.
  unfold TaskRunner.check_task. intros <-.
  destruct (procs !! Task.id task) as [p|].
  - by destruct (poll e p).
  - destruct (Task.pid task) as [p|]; [|done].
    destruct (p =? 0); [done|]. by destruct (alive e p).
Qed.

Lemma check_running_body_procs e w u x :
  x <> Task.id u ->
  running_processes (check_running_body e w u) !! x = running_processes w !! x.
Proof.
  intros Hx. unfold check_running_body, TaskRunner.check_task.
  destruct (running_processes w !! Task.id u) as [p|].
  - destruct (poll e p); cbn; [by rewrite lookup_delete_ne | done].
  - destruct (Task.pid u) as [p|]; [|done].
    destruct (p =? 0); [done|]. by destruct (alive e p).
Qed.

Lemma check_running_body_lookup e w i u :
  NoDup (ids (store w)) -> store w !! i = Some u ->
  store (check_running_body e w u) !! i = Some (reap_outcome e (running_processes w) u).
Proof.
  intros Hnd Hi. unfold check_running_body, reap_outcome.
  destruct (TaskRunner.check_task e (running_processes w) u) as [[c|] procs]; [|done].
  cbn. apply (update_task_lookup_eq _ _ i u); [done | done |].
  by rewrite reaped_id.
Qed.

Lemma check_running_loop_lookup e l w i task :
  NoDup (ids (store w)) -> NoDup (ids l) ->
  store w !! i = Some task -> task ∈ l ->
  store (check_running_loop e l w) !! i
  = Some (reap_outcome e (running_processes w) task).
Proof.
  revert w. induction l as [|u l IH]; intros w Hnd Hl Hi Hin.
  { by apply elem_of_nil in Hin. }
  cbn in Hl. apply NoDup_cons in Hl as [Hu Hl].
  cbn. fold (check_running_loop e l (check_running_body e w u)).
  apply elem_of_cons in Hin as [->|Hin].
  - apply check_running_loop_frame; [by apply check_running_body_lookup|].
    intros u' Hu'. rewrite reap_outcome_id. intros He. apply Hu. rewrite <- He.
    by apply list_elem_of_fmap_2.
  - assert (Task.id task <> Task.id u) as Hne.
    { intros He. apply Hu. rewrite <- He. by apply list_elem_of_fmap_2. }
    assert (ids (store (check_running_body e w u)) = ids (store w)) as Hids.
    { destruct (check_running_body_store e w u) as [->|(k & -> & _)]; [done|].
      apply update_task_ids. }
    rewrite (IH (check_running_body e w u)); [| by rewrite Hids | done | | done].
    + unfold reap_outcome.
      by rewrite (check_task_lookup e _ (running_processes w))
        by (by apply check_running_body_procs).
    + destruct (check_running_body_store e w u) as [->|(k & -> & Hid & _)]; [done|].
      apply update_task_lookup_ne; [done | congruence].
Qed.

Lemma get_running_tasks_NoDup tasks :
  NoDup (ids tasks) -> NoDup (ids (get_running_tasks tasks)).
Proof.
  intros H. eapply sublist_NoDup; [exact H|].
  apply fmap_sublist, sublist_filter.
Qed.

End Reap.

(** C5: in a store with one record per id, the reap phase leaves a running
    task as it is when [check_task] returns [None]; when [check_task]
    returns the exit code [c], the record in the store afterwards is the
    task with [exit_code = c], [finished_at = now], [status = completed]
    for [c = 0], and [status = failed] with the error message
    ["Process exited with code <c>"] otherwise; no other field changes. *)
Theorem reap_transitions :
  forall (e : Env) (w : World) (i : nat) (task : Task.t),
    NoDup (ids (store w)) ->
    store w !! i = Some task ->
    Task.status task = RUNNING ->
    store (Scheduler._check_running_tasks e w) !! i
    = Some
        match (TaskRunner.check_task e (running_processes w) task).1 with
        | None => task
        | Some c =>
            Task.mk (Task.id task) (Task.name task) (Task.command task)
              (Task.working_dir task) (Task.env task) (Task.requirements task)
              (if c =? 0 then COMPLETED else FAILED)
              (Task.priority task) (Task.created_at task) (Task.started_at task)
              (Some (now e (Task.id task)))
              (Task.assigned_gpus task) (Task.pid task)
              (Some c)
              (if c =? 0 then Task.error_message task
               else ("Process exited with code " ++ pretty c)%string)
              (Task.log_file task)
        end.
Proof.
  intros e w i task Hnd Hi Hr. unfold Scheduler._check_running_tasks.
  rewrite (check_running_loop_lookup e _ w i task);
    [| done | by apply get_running_tasks_NoDup | done
     | apply elem_of_get_running_tasks; split; [done | by eapply list_elem_of_lookup_2]].
  unfold reap_outcome, Scheduler.reaped.
  destruct (_.1) as [c|]; [|done]. by destruct (c =? 0).
Qed.

(** A child that exited with code 3, one that exited with 0, one alive. *)
Lemma reap_transitions_witness :
  let e := {| now := fun _ => t2;
              poll := fun p => if p =? 11 then Some 3 else if p =? 12 then Some 0 else None;
              alive := fun _ => true;
              spawn := fun _ _ => SpawnErr "unused";
              killpg := fun _ => KillOk;
              nvml := fun _ => idle_nvml 0 |} in
  let w := {| store := [sample_task "aaaa0001" RUNNING 0 t0 1;
                        sample_task "aaaa0002" RUNNING 0 t0 1;
                        sample_task "aaaa0003" RUNNING 0 t0 1];
              running_processes :=
                <["aaaa0001" := 11]> (<["aaaa0002" := 12]> (<["aaaa0003" := 13]> ∅)) |} in
  store (Scheduler._check_running_tasks e w) !! 0%nat
  = Some (Task.mk "aaaa0001" "job" "python train.py" "" []
            (GPURequirement.mk None 0%Q 100%Q 1) FAILED 0 t0 None (Some t2)
            [] None (Some 3) "Process exited with code 3" "").
Proof.
  intros e w.
  rewrite (reap_transitions e w 0 (sample_task "aaaa0001" RUNNING 0 t0 1));
    [reflexivity | | reflexivity | reflexivity].
  apply (bool_decide_unpack (NoDup (ids (store w)))). vm_compute. exact I.
Defined.

Example reap_three :
  let e := {| now := fun _ => t2;
              poll := fun p => if p =? 11 then Some 3 else if p =? 12 then Some 0 else None;
              alive := fun _ => true;
              spawn := fun _ _ => SpawnErr "unused";
              killpg := fun _ => KillOk;
              nvml := fun _ => idle_nvml 0 |} in
  let w := {| store := [sample_task "aaaa0001" RUNNING 0 t0 1;
                        sample_task "aaaa0002" RUNNING 0 t0 1;
                        sample_task "aaaa0003" RUNNING 0 t0 1];
              running_processes :=
                <["aaaa0001" := 11]> (<["aaaa0002" := 12]> (<["aaaa0003" := 13]> ∅)) |} in
  (fun k => (Task.status k, Task.exit_code k, Task.error_message k))
    <$> store (Scheduler._check_running_tasks e w)
  = [(FAILED, Some 3, "Process exited with code 3");
     (COMPLETED, Some 0, "");
     (RUNNING, None, "")].
Proof. vm_compute. reflexivity. Qed.

(** ** One record per id *)

(** C7, as stated, fails: [add_task] appends without looking, so a second
    submission that draws the same eight hexadecimal digits leaves two
    records with one id. *)
Lemma add_task_counterexample : ~ add_keeps_ids_unique_as_stated.
Proof.
  intros H.
  specialize (H [sample_task "deadbeef" PENDING 0 t0 1]
                (sample_task "deadbeef" PENDING 7 t1 2)).
  cbn in H. specialize (H ltac:(repeat constructor; apply not_elem_of_nil)).
  apply NoDup_cons in H as [H _]. apply H. left.
Qed.

Example submit_same_id_twice :
  ids (store (run {| logs_dir := "/logs"; max_concurrent_tasks := 4 |}
                  (Submit "deadbeef" t1 [("command", PStr "make")])
                  (run {| logs_dir := "/logs"; max_concurrent_tasks := 4 |}
                       (Submit "deadbeef" t0 [("command", PStr "true")]) empty_world)))
  = ["deadbeef"; "deadbeef"].
Proof. reflexivity. Qed.

Section UniqueIds.
Import QueueManager.

Lemma filter_ids_NoDup (P : Task.t -> Prop) `{!forall k, Decision (P k)} tasks :
  NoDup (ids tasks) -> NoDup (ids (filter P tasks)).
Proof.
  intros Hnd. eapply sublist_NoDup; [exact Hnd|].
  apply fmap_sublist, sublist_filter.
Qed.

Lemma add_task_NoDup tasks task :
  NoDup (ids tasks) ->
  NoDup (ids (add_task tasks task).1) <-> Task.id task ∉ ids tasks.
Proof.
  intros Hnd. cbn. rewrite fmap_app. cbn. rewrite NoDup_app.
  split.
  - intros (_ & H & _) Hin. apply (H _ Hin). left.
  - intros Hnew. split; [done|]. split.
    + intros x Hx [->|Hx']%elem_of_cons; [done | by apply elem_of_nil in Hx'].
    + apply NoDup_singleton.
Qed.

Lemma run_NoDup cfg o w :
  NoDup (ids (store w)) ->
  (forall x, draws x o -> x ∉ ids (store w)) ->
  NoDup (ids (store (run cfg o w))).
Proof.
  intros Hnd Hfresh.
  destruct (run_ids cfg o w) as [->|(new_id & created & params & -> & Hids)]; [done|].
  rewrite Hids. apply NoDup_app. split; [done|]. split; [|apply NoDup_singleton].
  intros x Hx [->|Hx']%elem_of_cons; [|by apply elem_of_nil in Hx'].
  by apply (Hfresh new_id).
Qed.

End UniqueIds.

(** C7, amended: in a store with one record per id, [update_task],
    [remove_task], [cancel_task] and [cleanup_old_tasks] keep one record
    per id; [add_task] does so exactly when the id of the added task is not
    in the store yet (it performs no check of its own).  Accordingly a
    tick and a cancel request keep the ids unique, and a submission does
    when the id drawn for the new task is not in use. *)
Theorem unique_ids_preserved :
  forall (cfg : Config) (w : World),
    NoDup (ids (store w)) ->
    (forall task, NoDup (ids (QueueManager.add_task (store w) task).1)
                  <-> Task.id task ∉ ids (store w))
    /\ (forall task, NoDup (ids (QueueManager.update_task (store w) task)))
    /\ (forall x, NoDup (ids (QueueManager.remove_task (store w) x).1))
    /\ (forall t x, NoDup (ids (QueueManager.cancel_task t (store w) x).1))
    /\ (forall t days r, QueueManager.cleanup_old_tasks t (store w) days = Some r ->
                         NoDup (ids r.1))
    /\ (forall o, (forall x, draws x o -> x ∉ ids (store w)) ->
                  NoDup (ids (store (run cfg o w)))).
Proof.
  intros cfg w Hnd. repeat split.
  - by apply add_task_NoDup.
  - by apply add_task_NoDup.
  - intros task. by rewrite update_task_ids.
  - intros x. unfold QueueManager.remove_task.
    destruct (_ <? _)%nat; [by apply filter_ids_NoDup | done].
  - intros t x. destruct (cancel_task_store t (store w) x) as [->|(k & -> & _)]; [done|].
    by rewrite update_task_ids.
  - intros t days [tasks' removed]. unfold QueueManager.cleanup_old_tasks.
    destruct (sub_days t days) as [cutoff|]; [|done]. cbn. intros [= <- _].
    destruct (0 <? _); [by apply filter_ids_NoDup | done].
  - intros o. by apply run_NoDup.
Qed.

Lemma unique_ids_preserved_witness :
  NoDup (ids (store (run {| logs_dir := "/logs"; max_concurrent_tasks := 2 |}
                         (Submit "aaaa0004" t2 [("command", PStr "true")])
                         three_submitted))).
Proof.
  refine (proj2 (proj2 (proj2 (proj2 (proj2
    (unique_ids_preserved {| logs_dir := "/logs"; max_concurrent_tasks := 2 |}
       three_submitted _))))) _ _).
  - apply (bool_decide_unpack (NoDup (ids (store three_submitted)))). vm_compute. exact I.
  - intros x <-.
    apply (bool_decide_unpack ("aaaa0004" ∉ ids (store three_submitted))).
    vm_compute. exact I.
Defined.

(** ** Cleanup *)

(** C8, as stated, fails: a terminal record without [finished_at] and one
    that finished exactly at the cutoff are both removed. *)
Lemma cleanup_counterexample : ~ cleanup_as_stated.
Proof.
  intros H.
  specialize (H t1 [sample_task "aaaa0001" COMPLETED 0 t0 1;
                    Task.with_finished_at (Some t1) (sample_task "aaaa0002" FAILED 0 t0 1)]
                0 t1 eq_refl).
  vm_compute in H. discriminate H.
Qed.

Section Cleanup.
Import QueueManager.

Lemma cleanup_keeps_removes cutoff k :
  cleanup_keeps cutoff k = negb (code_removes cutoff k).
Proof.
  unfold cleanup_keeps, code_removes.
  destruct (is_terminal _); cbn; [|done].
  destruct (Task.finished_at k) as [f|]; [|done].
  rewrite dt_gtb_leb. by destruct (dt_leb f cutoff).
Qed.

Lemma filter_length_eq {A} (P : A -> Prop) `{!forall x, Decision (P x)} (l : list A) :
  length (filter P l) = length l -> filter P l = l.
Proof.
  induction l as [|x l IH]; [done|]. rewrite filter_cons.
  destruct (decide (P x)); cbn; intros Hlen.
  - f_equal. apply IH. lia.
  - pose proof (length_filter P l). lia.
Qed.

Lemma filter_length_complement {A} (P : A -> Prop) `{!forall x, Decision (P x)}
    (l : list A) :
  length l = (length (filter P l) + length (filter (λ x, ¬ P x) l))%nat.
Proof.
  rewrite <- length_app. apply Permutation_length. symmetry.
  apply filter_app_complement.
Qed.

End Cleanup.

(** C8, amended: whenever [now - days] is a representable date,
    [cleanup(days)] removes exactly the records that are in a terminal
    status and whose [finished_at] is missing or not later than
    [now - days], leaves every other record unchanged and in place, and
    returns the number of records removed. *)
Theorem cleanup_old_tasks_removes :
  forall (t : datetime) (tasks : list Task.t) (days : Z) (cutoff : datetime),
    sub_days t days = Some cutoff ->
    QueueManager.cleanup_old_tasks t tasks days
    = Some (filter (λ k, code_removes cutoff k = false) tasks,
            Z.of_nat (length (filter (λ k, code_removes cutoff k = true) tasks))).
Proof.
  intros t tasks days cutoff Hc. unfold QueueManager.cleanup_old_tasks.
  rewrite Hc. cbn.
  assert (filter (λ k, QueueManager.cleanup_keeps cutoff k = true) tasks
          = filter (λ k, code_removes cutoff k = false) tasks) as ->.
  { apply list_filter_iff. intros k. rewrite cleanup_keeps_removes.
    by destruct (code_removes cutoff k). }
  assert (filter (λ k, code_removes cutoff k = true) tasks
          = filter (λ k, ¬ code_removes cutoff k = false) tasks) as ->.
  { apply list_filter_iff. intros k. by destruct (code_removes cutoff k). }
  pose proof (filter_length_complement (λ k, code_removes cutoff k = false) tasks) as Hlen.
  f_equal. f_equal; [|lia].
  destruct (Z.ltb_spec 0 (Z.of_nat (length tasks)
    - Z.of_nat (length (filter (λ k, code_removes cutoff k = false) tasks)))); [done|].
  symmetry. apply filter_length_eq.
  pose proof (length_filter (λ k, code_removes cutoff k = false) tasks). lia.
Qed.

Lemma cleanup_old_tasks_removes_witness :
  QueueManager.cleanup_old_tasks (mk_datetime 2024 5 8 12 0 10 0)
    [Task.with_finished_at (Some t0) (sample_task "aaaa0001" COMPLETED 0 t0 1);
     sample_task "aaaa0002" RUNNING 0 t0 1;
     Task.with_finished_at (Some t2) (sample_task "aaaa0003" CANCELLED 0 t0 1)] 7
  = Some ([sample_task "aaaa0002" RUNNING 0 t0 1;
           Task.with_finished_at (Some t2) (sample_task "aaaa0003" CANCELLED 0 t0 1)], 1).
Proof.
  rewrite (cleanup_old_tasks_removes _ _ _ t1); reflexivity.
Defined.

(** ** Requirements asking for no device *)

(** C10, as stated, fails for a negative count: with [gpu_count = -1] and
    two idle devices [candidates[:-1]] is [[0]], and the task is started
    on device 0. *)
Lemma zero_count_counterexample : ~ zero_count_as_stated.
Proof.
  intros H.
  destruct (H {| logs_dir := "/logs"; max_concurrent_tasks := 4 |}
              (sample_env t1 None 2)
              {| store := [sample_task "aaaa0001" PENDING 0 t0 (-1)];
                 running_processes := ∅ |}
              0%nat (sample_task "aaaa0001" PENDING 0 t0 (-1))
              ltac:(repeat constructor; apply not_elem_of_nil)
              eq_refl eq_refl ltac:(cbn; lia)) as [_ Hs].
  vm_compute in Hs. discriminate Hs.
Qed.

Example negative_count_admitted :
  (fun k => (Task.status k, Task.assigned_gpus k))
    <$> store (Scheduler._tick {| logs_dir := "/logs"; max_concurrent_tasks := 4 |}
                 (sample_env t1 None 2)
                 {| store := [sample_task "aaaa0001" PENDING 0 t0 (-1)];
                    running_processes := ∅ |})
  = [(RUNNING, [0])].
Proof. vm_compute. reflexivity. Qed.

Section ZeroCount.
Import QueueManager Scheduler GPUMonitor.

(** The slice is empty for a zero bound, and for a negative bound that
    reaches over the whole list. *)
Lemma slice_to_empty {A} n (l : list A) :
  n = 0 \/ (n < 0 /\ Z.of_nat (length l) <= - n) -> slice_to n l = [].
Proof.
  unfold slice_to. intros [->|[Hn Hl]]; [done|].
  destruct (Z.leb_spec 0 n); [lia|].
  by replace (Z.to_nat (Z.of_nat (length l) + n)) with 0%nat by lia.
Qed.

Lemma select_empty req snapshot :
  GPURequirement.gpu_count req = 0
  \/ (GPURequirement.gpu_count req < 0
      /\ Z.of_nat (length (survivors req snapshot)) <= - GPURequirement.gpu_count req) ->
  select req snapshot = Some [].
Proof.
  intros H. unfold select.
  destruct (Z.leb_spec (GPURequirement.gpu_count req)
              (Z.of_nat (length (candidates req snapshot)))); [|lia].
  rewrite slice_to_empty; [done|].
  by rewrite candidates_survivors, length_fmap.
Qed.

End ZeroCount.

(** C10, amended: for [gpu_count = 0], and for a negative [gpu_count]
    whenever at most [-gpu_count] devices pass the filter,
    [check_requirements] returns the empty list on every device snapshot;
    the admission test takes it for no match, and a pending task with such
    requirements is still pending, unchanged, after the tick (ids being
    unique).  A negative [gpu_count] with more devices than that is not
    covered: there [candidates[:gpu_count]] is not empty. *)
Theorem zero_gpu_count_stays_pending :
  forall (cfg : Config) (e : Env) (w : World) (i : nat) (task : Task.t),
    NoDup (ids (store w)) ->
    store w !! i = Some task ->
    Task.status task = PENDING ->
    (forall snapshot,
        GPUMonitor.get_all_gpu_status (nvml e (Task.id task)) = Some snapshot ->
        GPURequirement.gpu_count (Task.requirements task) = 0
        \/ (GPURequirement.gpu_count (Task.requirements task) < 0
            /\ Z.of_nat (length (survivors (Task.requirements task) snapshot))
               <= - GPURequirement.gpu_count (Task.requirements task))) ->
    (forall snapshot,
        GPUMonitor.get_all_gpu_status (nvml e (Task.id task)) = Some snapshot ->
        GPUMonitor.check_requirements (nvml e (Task.id task)) (Task.requirements task)
        = Some [])
    /\ gpus_truthy (GPUMonitor.check_requirements (nvml e (Task.id task))
                      (Task.requirements task)) = false
    /\ store (Scheduler._tick cfg e w) !! i = Some task.
Proof.
  intros cfg e w i task Hnd Hi Hp Hcount.
  assert (forall snapshot,
    GPUMonitor.get_all_gpu_status (nvml e (Task.id task)) = Some snapshot ->
    GPUMonitor.check_requirements (nvml e (Task.id task)) (Task.requirements task)
    = Some []) as Hempty.
  { intros snapshot Hs. unfold GPUMonitor.check_requirements. rewrite Hs.
    apply select_empty. by apply Hcount. }
  assert (gpus_truthy (GPUMonitor.check_requirements (nvml e (Task.id task))
                         (Task.requirements task)) = false) as Hfalsy.
  { destruct (GPUMonitor.get_all_gpu_status (nvml e (Task.id task))) as [snapshot|] eqn:Hs.
    - by rewrite (Hempty snapshot).
    - unfold GPUMonitor.check_requirements. by rewrite Hs. }
  split; [done|]. split; [done|].
  assert (task ∈ store w) as Hin by (by eapply list_elem_of_lookup_2).
  unfold Scheduler._tick.
  assert (store (Scheduler._check_running_tasks e w) !! i = Some task) as Hi1.
  { apply check_running_loop_frame; [done|].
    intros u [Hr Hu]%elem_of_get_running_tasks He.
    rewrite (unique_ids_elem (store w) u task Hnd Hu Hin He) in Hr. congruence. }
  unfold Scheduler._schedule_pending_tasks. destruct (_ <=? _); [done|].
  apply schedule_loop_frame; [done|].
  intros u [_ Hu]%elem_of_get_pending_tasks He.
  assert (u = task) as ->; [|done].
  apply (unique_ids_elem (store (Scheduler._check_running_tasks e w))); try done.
  - unfold Scheduler._check_running_tasks. by rewrite check_running_loop_ids.
  - by eapply list_elem_of_lookup_2.
Qed.

Lemma zero_gpu_count_stays_pending_witness :
  let w := {| store := [sample_task "aaaa0001" PENDING 9 t0 0;
                        sample_task "aaaa0002" PENDING 0 t1 1];
              running_processes := ∅ |} in
  store (Scheduler._tick {| logs_dir := "/logs"; max_concurrent_tasks := 4 |}
           (sample_env t2 None 2) w) !! 0%nat
  = Some (sample_task "aaaa0001" PENDING 9 t0 0).
Proof.
  intros w.
  refine (proj2 (proj2 (zero_gpu_count_stays_pending _ _ w 0 _ _ _ _ _))).
  - apply (bool_decide_unpack (NoDup (ids (store w)))). vm_compute. exact I.
  - reflexivity.
  - reflexivity.
  - intros snapshot _. by left.
Defined.

Example zero_count_tick :
  Task.status <$>
    store (Scheduler._tick {| logs_dir := "/logs"; max_concurrent_tasks := 4 |}
             (sample_env t2 None 2)
             {| store := [sample_task "aaaa0001" PENDING 9 t0 0;
                          sample_task "aaaa0002" PENDING 0 t1 1];
                running_processes := ∅ |})
  = [PENDING; RUNNING].
Proof. vm_compute. reflexivity. Qed.

(** ** Scenarios *)

(** Task A (priority 0, created first) and task B (priority 5, created
    later): B is first in the pending order. *)
Example higher_priority_first :
  Task.id <$> QueueManager.get_pending_tasks
                [sample_task "aaaa000a" PENDING 0 t0 1;
                 sample_task "aaaa000c" RUNNING 9 t0 1;
                 sample_task "aaaa000b" PENDING 5 t1 1;
                 sample_task "aaaa000d" PENDING 5 t0 1]
  = ["aaaa000d"; "aaaa000b"; "aaaa000a"].
Proof. vm_compute. reflexivity. Qed.

(** One device at 95% utilisation and [max_util_percent = 50]: the task
    waits; at 10% it is started. *)
Example busy_device_waits :
  let task := Task.mk "aaaa0001" "job" "true" "" []
                (GPURequirement.mk None 0%Q 50%Q 1) PENDING 0 t0 None None
                [] None None "" "" in
  let device u := {| nvmlDeviceGetCount := Some 1;
                     nvmlDevice := fun _ =>
                       Some (Build_nvml_device "gpu" 25769803776 0 25165824000 u 40) |} in
  let e u := {| now := fun _ => t1; poll := fun _ => None; alive := fun _ => true;
                spawn := fun _ _ => SpawnOk 4242; killpg := fun _ => KillOk;
                nvml := fun _ => device u |} in
  let cfg := {| logs_dir := "/logs"; max_concurrent_tasks := 4 |} in
  let w := {| store := [task]; running_processes := ∅ |} in
  Task.status <$> store (Scheduler._tick cfg (e 95) w) = [PENDING]
  /\ Task.status <$> store (Scheduler._tick cfg (e 10) w) = [RUNNING].
Proof. split; vm_compute; reflexivity. Qed.

(** After a restart no handle is tracked: a live pid stays running, a dead
    one is failed with exit code -1. *)
Example reap_after_restart :
  let e := {| now := fun _ => t2; poll := fun _ => None;
              alive := fun p => p =? 501;
              spawn := fun _ _ => SpawnErr "unused"; killpg := fun _ => KillOk;
              nvml := fun _ => idle_nvml 0 |} in
  let w := {| store := [Task.with_pid (Some 501) (sample_task "aaaa0001" RUNNING 0 t0 1);
                        Task.with_pid (Some 502) (sample_task "aaaa0002" RUNNING 0 t0 1)];
              running_processes := ∅ |} in
  (fun k => (Task.status k, Task.exit_code k, Task.error_message k))
    <$> store (Scheduler._check_running_tasks e w)
  = [(RUNNING, None, ""); (FAILED, Some (-1), "Process exited with code -1")].
Proof. vm_compute. reflexivity. Qed.

(** Cancelling a running task, then a tick that finds the child gone: the
    task is cancelled and stays so. *)
Example cancel_then_tick :
  let cfg := {| logs_dir := "/logs"; max_concurrent_tasks := 4 |} in
  let e := sample_env t2 (Some (-15)) 0 in
  let w := {| store := [Task.with_pid (Some 77) (sample_task "aaaa0001" RUNNING 0 t0 1)];
              running_processes := <["aaaa0001" := 77]> ∅ |} in
  Task.status <$> store (run cfg (Tick e) (run cfg (Cancel e "aaaa0001") w))
  = [CANCELLED].
Proof. vm_compute. reflexivity. Qed.

(** * Further properties of the code *)

(** ** The store: reading after writing *)

Section StoreReads.
Import QueueManager.
Implicit Types (tasks : list Task.t) (task k : Task.t).

Lemma get_task_app tasks tasks' x :
  get_task (tasks ++ tasks') x
  = match get_task tasks x with Some k => Some k | None => get_task tasks' x end.
Proof.
  induction tasks as [|k l IH]; [done|]. cbn.
  by destruct (String.eqb (Task.id k) x).
Qed.

Lemma get_task_update_eq tasks task :
  get_task (update_task tasks task) (Task.id task)
  = (fun _ => task) <$> get_task tasks (Task.id task).
Proof.
  induction tasks as [|k l IH]; [done|]. cbn.
  destruct (String.eqb_spec (Task.id k) (Task.id task)) as [He|Hne]; cbn.
  - by rewrite String.eqb_refl.
  - by destruct (String.eqb_spec (Task.id k) (Task.id task)).
Qed.

Lemma get_task_update_ne tasks task x :
  x <> Task.id task -> get_task (update_task tasks task) x = get_task tasks x.
Proof.
  intros Hx. induction tasks as [|k l IH]; [done|]. cbn.
  destruct (String.eqb_spec (Task.id k) (Task.id task)) as [He|Hne]; cbn.
  - destruct (String.eqb_spec (Task.id task) x); [congruence|].
    by destruct (String.eqb_spec (Task.id k) x); [congruence|].
  - by rewrite IH.
Qed.

Lemma update_task_absent tasks task :
  get_task tasks (Task.id task) = None -> update_task tasks task = tasks.
Proof.
  induction tasks as [|k l IH]; [done|]. cbn.
  destruct (String.eqb (Task.id k) (Task.id task)); [done|].
  intros H. by rewrite IH.
Qed.

Lemma get_task_filter_ne tasks x y :
  y <> x ->
  get_task (filter (λ k, Task.id k ≠ x) tasks) y = get_task tasks y.
Proof.
  intros Hy. induction tasks as [|k l IH]; [done|].
  rewrite filter_cons. destruct (decide (Task.id k ≠ x)) as [Hk|Hk]; cbn.
  - by rewrite IH.
  - rewrite IH. apply dec_stable in Hk.
    by destruct (String.eqb_spec (Task.id k) y); [congruence|].
Qed.

Lemma get_task_filter_eq tasks x :
  get_task (filter (λ k, Task.id k ≠ x) tasks) x = None.
Proof.
  apply get_task_None. intros [k [-> Hk]]%list_elem_of_fmap.
  by apply list_elem_of_filter in Hk as [Hk _].
Qed.

End StoreReads.

(** X1: [update_task] replaces the record that [get_task] finds under the
    id of the new record: afterwards [get_task] returns the new record for
    this id and what it returned before for every other id; when the id is
    not in the store, [update_task] changes nothing. *)
Theorem update_then_get :
  forall (tasks : list Task.t) (task : Task.t) (x : string),
    QueueManager.get_task (QueueManager.update_task tasks task) x
    = (if String.eqb x (Task.id task)
       then (fun _ => task) <$> QueueManager.get_task tasks x
       else QueueManager.get_task tasks x)
    /\ (QueueManager.get_task tasks (Task.id task) = None ->
        QueueManager.update_task tasks task = tasks).
Proof.
  intros tasks task x. split; [|apply update_task_absent].
  destruct (String.eqb_spec x (Task.id task)) as [->|Hne].
  - apply get_task_update_eq.
  - by apply get_task_update_ne.
Qed.

(** X2: [add_task] returns the id of the task and appends the task; a
    later [get_task] of an id finds the record that was there before, and
    the new task only when the id was not in the store: a task added under
    an id in use cannot be read back. *)
Theorem add_then_get :
  forall (tasks : list Task.t) (task : Task.t) (x : string),
    (QueueManager.add_task tasks task).2 = Task.id task
    /\ QueueManager.get_task (QueueManager.add_task tasks task).1 x
       = match QueueManager.get_task tasks x with
         | Some k => Some k
         | None => if String.eqb (Task.id task) x then Some task else None
         end.
Proof.
  intros tasks task x. split; [done|]. cbn [QueueManager.add_task fst].
  by rewrite get_task_app.
Qed.

(** X3: [remove_task] reports [True] exactly when the id is in the store;
    afterwards the id is not found (every record carrying it is gone) and
    every other id reads as before. *)
Theorem remove_then_get :
  forall (tasks : list Task.t) (x y : string),
    (QueueManager.remove_task tasks x).2 = bool_decide (x ∈ ids tasks)
    /\ QueueManager.get_task (QueueManager.remove_task tasks x).1 x = None
    /\ (y <> x ->
        QueueManager.get_task (QueueManager.remove_task tasks x).1 y
        = QueueManager.get_task tasks y).
Proof.
  intros tasks x y. unfold QueueManager.remove_task.
  destruct (Nat.ltb_spec (length (filter (λ k, Task.id k ≠ x) tasks)) (length tasks))
    as [Hlt|Hge]; cbn [fst snd].
  - split; [|split; [apply get_task_filter_eq | apply get_task_filter_ne]].
    symmetry. apply bool_decide_eq_true.
    destruct (decide (x ∈ ids tasks)) as [|Hnot]; [done|]. exfalso.
    assert (filter (λ k, Task.id k ≠ x) tasks = tasks) as Hf; [|rewrite Hf in Hlt; lia].
    clear Hlt. induction tasks as [|k l IH]; [done|].
    cbn in Hnot. apply not_elem_of_cons in Hnot as [Hk Hl].
    rewrite filter_cons_True by congruence. by rewrite IH.
  - pose proof (length_filter (λ k, Task.id k ≠ x) tasks) as Hle.
    assert (x ∉ ids tasks) as Hnot.
    { intros [k [-> Hk]]%list_elem_of_fmap.
      pose proof (length_filter_lt (λ k', Task.id k' ≠ Task.id k) tasks k Hk) as H.
      cbn in H. specialize (H ltac:(by intros ?)). lia. }
    split; [by rewrite bool_decide_eq_false_2|].
    split; [by apply get_task_None | done].
Qed.

(** X4: the store's [cancel_task] succeeds exactly when the id is found
    with status pending; then the record read under the id is the old one
    with status cancelled and [finished_at] set to the time of the call.
    For a running or finished task, or an unknown id, it returns [False]
    and leaves the store as it is. *)
Theorem cancel_task_pending_only :
  forall (t : datetime) (tasks : list Task.t) (x : string),
    match QueueManager.get_task tasks x with
    | Some k =>
        if bool_decide (Task.status k = PENDING) then
          (QueueManager.cancel_task t tasks x).2 = true
          /\ QueueManager.get_task (QueueManager.cancel_task t tasks x).1 x
             = Some (Task.mk (Task.id k) (Task.name k) (Task.command k)
                       (Task.working_dir k) (Task.env k) (Task.requirements k)
                       CANCELLED (Task.priority k) (Task.created_at k)
                       (Task.started_at k) (Some t) (Task.assigned_gpus k)
                       (Task.pid k) (Task.exit_code k) (Task.error_message k)
                       (Task.log_file k))
        else QueueManager.cancel_task t tasks x = (tasks, false)
    | None => QueueManager.cancel_task t tasks x = (tasks, false)
    end.
Proof.
  intros t tasks x. unfold QueueManager.cancel_task, has_status.
  destruct (QueueManager.get_task tasks x) as [k|] eqn:Hg; [|done].
  destruct (bool_decide (Task.status k = PENDING)); [|done].
  split; [done|]. cbn [fst].
  pose proof (get_task_id _ _ _ Hg) as Hid.
  pose proof (get_task_update_eq tasks
    (Task.with_finished_at (Some t) (Task.with_status CANCELLED k))) as H.
  cbn [Task.with_finished_at Task.with_status Task.id] in H.
  rewrite Hid, Hg in H. exact H.
Qed.

(** X5: the six numbers of [get_statistics] are consistent: the total is
    the sum of the counts per status. *)
Theorem statistics_add_up :
  forall tasks : list Task.t,
    let s := QueueManager.get_statistics tasks in
    QueueManager.total s
    = (QueueManager.pending s + QueueManager.running s + QueueManager.completed s
       + QueueManager.failed s + QueueManager.cancelled s)%nat.
Proof.
  intros tasks. cbn. induction tasks as [|k l IH]; [done|].
  rewrite !filter_cons. cbn [length]. rewrite IH.
  destruct (Task.status k); repeat case_decide; try done; cbn [length]; lia.
Qed.

(** ** The runner's process table *)

(** X6: a task started by [start_task] is watched through its handle: on
    a successful spawn the task is running with the child's pid and the
    given devices, and [check_task] then reports what polling that child
    gives (dropping the handle once an exit code is seen); on a failed
    spawn the task is failed with the reason as its error message, and the
    table is as before. *)
Theorem start_then_check :
  forall (cfg : Config) (e : Env) (procs : gmap string Z) (task : Task.t) (g : list Z),
    let r := TaskRunner.start_task cfg e procs task g in
    match spawn e (Task.with_log_file (TaskRunner.log_path cfg task) task)
                (TaskRunner.cuda_visible_devices g) with
    | SpawnOk p =>
        r.1.1 = true
        /\ Task.status r.1.2 = RUNNING /\ Task.pid r.1.2 = Some p
        /\ Task.assigned_gpus r.1.2 = g
        /\ (TaskRunner.check_task e r.2 r.1.2).1 = poll e p
        /\ (TaskRunner.check_task e r.2 r.1.2).2 !! Task.id task
           = match poll e p with Some _ => None | None => Some p end
    | SpawnErr reason =>
        r.1.1 = false
        /\ Task.status r.1.2 = FAILED /\ Task.error_message r.1.2 = reason
        /\ Task.finished_at r.1.2 = Some (now e (Task.id task))
        /\ r.2 = procs
    end.
Proof.
  intros cfg e procs task g r. subst r. unfold TaskRunner.start_task.
  destruct (spawn e _ _) as [p|reason]; [|done].
  cbn [fst snd Task.status Task.pid Task.assigned_gpus Task.with_started_at
       Task.with_status Task.with_assigned_gpus Task.with_pid Task.with_log_file Task.id].
  repeat split; try done.
  - unfold TaskRunner.check_task. cbn [Task.id]. rewrite lookup_insert_eq.
    by destruct (poll e p).
  - unfold TaskRunner.check_task. cbn [Task.id]. rewrite lookup_insert_eq.
    destruct (poll e p); cbn [snd]; [apply lookup_delete_eq | apply lookup_insert_eq].
Qed.

(** X7: [check_task] never touches the handle of another task, changes
    nothing when it returns [None], and after it has returned an exit code
    the task is no longer tracked: a second check goes by the stored pid
    alone and can only say "still alive" or -1. *)
Theorem check_task_reports_once :
  forall (e : Env) (procs : gmap string Z) (task : Task.t),
    let r := TaskRunner.check_task e procs task in
    (forall x, x <> Task.id task -> r.2 !! x = procs !! x)
    /\ (r.1 = None -> r.2 = procs)
    /\ (forall c, r.1 = Some c ->
          r.2 !! Task.id task = None
          /\ (TaskRunner.check_task e r.2 task).1
             = match Task.pid task with
               | Some p => if negb (p =? 0) && alive e p then None else Some (-1)
               | None => Some (-1)
               end).
Proof.
  intros e procs task.
  assert (forall procs0, procs0 !! Task.id task = None ->
    (TaskRunner.check_task e procs0 task).1
    = match Task.pid task with
      | Some p => if negb (p =? 0) && alive e p then None else Some (-1)
      | None => Some (-1)
      end) as Huntracked.
  { intros procs0 H0. unfold TaskRunner.check_task. rewrite H0.
    destruct (Task.pid task) as [q|]; [|done].
    destruct (q =? 0); [done|]. by destruct (alive e q). }
  cbn zeta. destruct (TaskRunner.check_task e procs task) as [r procs'] eqn:E.
  cbn [fst snd]. unfold TaskRunner.check_task in E.
  destruct (procs !! Task.id task) as [p|] eqn:Hp.
  - destruct (poll e p) as [c|]; injection E as <- <-.
    + split; [intros x Hx; by rewrite lookup_delete_ne|]. split; [done|].
      intros c' _. split; [apply lookup_delete_eq|].
      apply Huntracked, lookup_delete_eq.
    + repeat split; done.
  - assert (procs' = procs) as ->.
    { destruct (Task.pid task) as [q|]; [|by injection E].
      destruct (q =? 0); [by injection E|]. destruct (alive e q); by injection E. }
    split; [done|]. split; [done|]. intros c _. split; [done|]. by apply Huntracked.
Qed.

(** ** Logs and listings *)

(** X8: for a task whose log file exists and can be read,
    [get_log_content] returns the concatenation of the last [tail] lines
    of the file: all of them when [tail] is not positive or not smaller
    than the number of lines.  [follow] has no effect. *)
Theorem log_content_tail :
  forall (fs : Files) (task : Task.t) (tail : Z) (follow : bool) (lines : list string),
    Task.log_file task <> "" ->
    path_exists fs (Task.log_file task) = true ->
    readlines fs (Task.log_file task) = Returns lines ->
    exists skipped kept,
      lines = skipped ++ kept
      /\ TaskRunner.get_log_content fs task tail follow = String.concat "" kept
      /\ length kept
         = (if 0 <? tail then Nat.min (Z.to_nat tail) (length lines) else length lines)
      /\ TaskRunner.get_log_content fs task tail (negb follow)
         = TaskRunner.get_log_content fs task tail follow.
Proof.
  intros fs task tail follow lines Hname Hex Hread.
  unfold TaskRunner.get_log_content. rewrite Hex, Hread.
  destruct (String.eqb_spec (Task.log_file task) "") as [|_]; [done|]. cbn [negb].
  destruct (0 <? tail).
  - exists (take (length lines - Z.to_nat tail) lines), (TaskRunner.last_lines tail lines).
    unfold TaskRunner.last_lines. rewrite take_drop, length_drop.
    repeat split; try done. lia.
  - exists [], lines. done.
Qed.

Lemma log_content_tail_witness :
  let fs := {| path_exists := fun _ => true;
               readlines := fun _ => Returns ["epoch 1 "; "epoch 2 "; "done"] |} in
  let task := Task.with_log_file "/logs/task_aaaa0001.log"
                (sample_task "aaaa0001" RUNNING 0 t0 1) in
  exists skipped kept,
    ["epoch 1 "; "epoch 2 "; "done"] = skipped ++ kept
    /\ TaskRunner.get_log_content fs task 2 false = String.concat "" kept
    /\ length kept = 2%nat
    /\ TaskRunner.get_log_content fs task 2 true
       = TaskRunner.get_log_content fs task 2 false.
Proof.
  intros fs task.
  apply (log_content_tail fs task 2 false); [discriminate | reflexivity | reflexivity].
Defined.

(** X9: [handle_list] with the filter ["all"] lists every task in store
    order; with the name of a status, exactly the tasks of that status;
    with any other string it lists nothing (and does not fail). *)
Theorem handle_list_filter :
  forall (w : World) (f : string),
    Handlers.handle_list (PStr f) w
    = Task.to_dict <$>
        (if String.eqb f "all" then store w
         else match TaskStatus_.of_value (PStr f) with
              | Some s => QueueManager.get_tasks_by_status (store w) s
              | None => []
              end).
Proof.
  intros w f. unfold Handlers.handle_list, QueueManager.get_all_tasks,
    QueueManager.get_tasks_by_status.
  destruct (String.eqb f "all") eqn:Hall; cbn [negb]; [done|]. f_equal.
  assert (forall s, TaskStatus_.of_value (PStr f) = Some s ->
                    forall k, String.eqb (TaskStatus_.value (Task.status k)) f = true
                              <-> Task.status k = s) as Hsome.
  { intros s Hs k. rewrite String.eqb_eq. cbn in Hs.
    repeat match type of Hs with
           | (if String.eqb ?a ?b then _ else _) = _ =>
               destruct (String.eqb_spec a b); [injection Hs as <-; subst f|]
           end; try discriminate;
      (split; [by destruct (Task.status k) | by intros ->]). }
  assert (TaskStatus_.of_value (PStr f) = None ->
          forall k, String.eqb (TaskStatus_.value (Task.status k)) f <> true) as Hnone.
  { intros Hn k. rewrite String.eqb_eq. intros <-.
    by rewrite of_value_value in Hn. }
  destruct (TaskStatus_.of_value (PStr f)) as [s|].
  - apply list_filter_iff. intros k. by apply Hsome.
  - induction (store w) as [|k l IH]; [done|].
    rewrite filter_cons_False; [done | by apply Hnone].
Qed.

(** ** The admission phase, task by task *)

Section Admission.
Import QueueManager Scheduler.
Implicit Types (w : World) (task k u : Task.t) (e : Env) (cfg : Config).

Lemma schedule_loop_cons_shape cfg e task rest w :
  schedule_loop cfg e (task :: rest) w
  = if max_concurrent_tasks cfg <=? running_count (store w) then w
    else if gpus_truthy (probe e task) then
      schedule_loop cfg e rest
        {| store :=
             update_task (store w)
               (TaskRunner.start_task cfg e (running_processes w) task
                  (default [] (probe e task))).1.2;
           running_processes :=
             (TaskRunner.start_task cfg e (running_processes w) task
                (default [] (probe e task))).2 |}
    else schedule_loop cfg e rest w.
Proof.
  cbn [schedule_loop]. unfold probe.
  destruct (_ <=? _); [done|]. destruct (gpus_truthy _); [|done].
  by destruct (TaskRunner.start_task _ _ _ _ _) as [[ok k] procs].
Qed.

Lemma start_task_same_submission cfg e procs task g :
  same_submission task (TaskRunner.start_task cfg e procs task g).1.2.
Proof. unfold TaskRunner.start_task. destruct (spawn e _ _); by repeat split. Qed.

Lemma start_task_status cfg e procs task g :
  Task.status (TaskRunner.start_task cfg e procs task g).1.2 = RUNNING
  \/ Task.status (TaskRunner.start_task cfg e procs task g).1.2 = FAILED.
Proof. unfold TaskRunner.start_task. destruct (spawn e _ _); [by left | by right]. Qed.

Lemma get_pending_tasks_NoDup tasks :
  NoDup (ids tasks) -> NoDup (ids (get_pending_tasks tasks)).
Proof.
  intros H. unfold get_pending_tasks.
  rewrite (sorted_perm pending_key_leb). by apply filter_ids_NoDup.
Qed.

Lemma not_in_ids (l : list Task.t) u u' :
  Task.id u ∉ ids l -> u' ∈ l -> Task.id u' <> Task.id u.
Proof. intros Hu Hin He. apply Hu. rewrite <- He. by apply list_elem_of_fmap_2. Qed.

(** The loop handles a prefix of the list, one task after the other, and
    leaves the rest alone; it stops before the end only at the limit. *)
Lemma schedule_loop_prefix cfg e l w :
  NoDup (ids (store w)) -> NoDup (ids l) ->
  exists visited rest,
    l = visited ++ rest
    /\ (rest = [] \/ max_concurrent_tasks cfg
                     <= running_count (store (schedule_loop cfg e l w)))
    /\ (forall u i, u ∈ rest -> store w !! i = Some u ->
                    store (schedule_loop cfg e l w) !! i = Some u)
    /\ (forall u i, u ∈ visited -> store w !! i = Some u ->
          if gpus_truthy (probe e u)
          then exists k', store (schedule_loop cfg e l w) !! i = Some k'
                          /\ started_from cfg e u k'
          else store (schedule_loop cfg e l w) !! i = Some u).
Proof.
  revert w. induction l as [|u l IH]; intros w Hnd Hl.
  { exists [], []. repeat split; [by left | |]; intros u i Hu; by apply elem_of_nil in Hu. }
  cbn in Hl. apply NoDup_cons in Hl as [Hu Hl].
  rewrite schedule_loop_cons_shape.
  destruct (Z.leb_spec (max_concurrent_tasks cfg) (running_count (store w))) as [Hfull|Hroom].
  { exists [], (u :: l). repeat split; [by right | done |].
    intros u' i Hu'. by apply elem_of_nil in Hu'. }
  assert (forall w1 i k, store w1 !! i = Some k -> Task.id k = Task.id u ->
            store (schedule_loop cfg e l w1) !! i = Some k) as Hkeep.
  { intros w1 i k Hi Hk. apply schedule_loop_frame; [done|].
    intros u' Hu' He. destruct (not_in_ids l u u' Hu Hu'). congruence. }
  destruct (gpus_truthy (probe e u)) eqn:Hg.
  - set (r := TaskRunner.start_task cfg e (running_processes w) u (default [] (probe e u))).
    set (w1 := {| store := update_task (store w) r.1.2; running_processes := r.2 |}).
    assert (Task.id r.1.2 = Task.id u) as Hid by apply start_task_id.
    destruct (IH w1) as (visited & rest & -> & Hrest & Hleft & Hdone);
      [by cbn; rewrite update_task_ids | done |].
    exists (u :: visited), rest. repeat split; [done | |].
    + intros u' i Hu' Hi. apply Hleft; [done|]. cbn.
      apply update_task_lookup_ne; [done|]. rewrite Hid.
      apply (not_in_ids (visited ++ rest) u u' Hu). apply elem_of_app. by right.
    + intros u' i [->|Hu']%elem_of_cons Hi.
      * rewrite Hg. exists r.1.2. split; [|by exists (running_processes w)].
        apply Hkeep; [|done]. cbn. by apply (update_task_lookup_eq _ _ i u).
      * apply Hdone; [done|]. cbn.
        apply update_task_lookup_ne; [done|]. rewrite Hid.
        apply (not_in_ids (visited ++ rest) u u' Hu). apply elem_of_app. by left.
  - destruct (IH w) as (visited & rest & -> & Hrest & Hleft & Hdone); [done | done |].
    exists (u :: visited), rest. repeat split; [done | done |].
    intros u' i [->|Hu']%elem_of_cons Hi.
    + rewrite Hg. by apply Hkeep.
    + by apply Hdone.
Qed.

(** The phase as a whole, for a record of the store. *)
Lemma schedule_pending_lookup cfg e w i k :
  NoDup (ids (store w)) -> store w !! i = Some k ->
  store (_schedule_pending_tasks cfg e w) !! i = Some k
  \/ (Task.status k = PENDING /\ gpus_truthy (probe e k) = true
      /\ exists k', store (_schedule_pending_tasks cfg e w) !! i = Some k'
                    /\ started_from cfg e k k').
Proof.
  intros Hnd Hi. unfold _schedule_pending_tasks.
  destruct (_ <=? _); [by left|].
  destruct (decide (Task.status k = PENDING)) as [Hp|Hp].
  - destruct (schedule_loop_prefix cfg e (get_pending_tasks (store w)) w Hnd
                (get_pending_tasks_NoDup _ Hnd))
      as (visited & rest & Hl & _ & Hleft & Hdone).
    assert (k ∈ visited ++ rest) as [Hk|Hk]%elem_of_app.
    { rewrite <- Hl. apply elem_of_get_pending_tasks.
      split; [done | by eapply list_elem_of_lookup_2]. }
    + specialize (Hdone k i Hk Hi). destruct (gpus_truthy (probe e k)); [|by left].
      right. done.
    + left. by apply Hleft.
  - left. apply schedule_loop_frame; [done|].
    intros u [Hu Hin]%elem_of_get_pending_tasks He.
    rewrite (unique_ids_elem (store w) u k Hnd Hin
               (list_elem_of_lookup_2 _ _ _ Hi) He) in Hu. done.
Qed.

End Admission.

Section AdmissionOrder.
Import QueueManager Scheduler.

Lemma schedule_loop_no_devices cfg e l w :
  (forall u, u ∈ l -> gpus_truthy (probe e u) = false) ->
  schedule_loop cfg e l w = w.
Proof.
  induction l as [|u l IH]; intros Hl; [done|].
  rewrite schedule_loop_cons_shape. destruct (_ <=? _); [done|].
  rewrite (Hl u) by left. apply IH. intros u' Hu'. apply Hl. by right.
Qed.

End AdmissionOrder.

(** X10: no admissible task is left waiting while a slot is free.  After
    the admission phase on a store with unique ids, either the number of
    running tasks has reached [max_concurrent_tasks], or every task that
    was pending and for which the probe returned devices has been handed
    to [start_task]: its record is now running or failed. *)
Theorem admission_fills_slots :
  forall (cfg : Config) (e : Env) (w : World),
    NoDup (ids (store w)) ->
    max_concurrent_tasks cfg
      <= running_count (store (Scheduler._schedule_pending_tasks cfg e w))
    \/ (forall i k,
          store w !! i = Some k -> Task.status k = PENDING ->
          gpus_truthy (probe e k) = true ->
          exists k', store (Scheduler._schedule_pending_tasks cfg e w) !! i = Some k'
                     /\ started_from cfg e k k'
                     /\ (Task.status k' = RUNNING \/ Task.status k' = FAILED)).
Proof.
  intros cfg e w Hnd. unfold Scheduler._schedule_pending_tasks.
  destruct (Z.leb_spec (max_concurrent_tasks cfg) (running_count (store w)));
    [by left|].
  destruct (schedule_loop_prefix cfg e (QueueManager.get_pending_tasks (store w)) w Hnd
              (get_pending_tasks_NoDup _ Hnd))
    as (visited & rest & Hl & [->|Hfull] & _ & Hdone); [right | by left].
  rewrite app_nil_r in Hl. subst visited.
  intros i k Hi Hp Hg.
  assert (k ∈ QueueManager.get_pending_tasks (store w)) as Hk.
  { apply elem_of_get_pending_tasks. split; [done | by eapply list_elem_of_lookup_2]. }
  specialize (Hdone k i Hk Hi). rewrite Hg in Hdone.
  destruct Hdone as (k' & Hk' & Hs). exists k'. repeat split; [done | done |].
  destruct Hs as [procs ->]. apply start_task_status.
Qed.

Lemma admission_fills_slots_witness :
  let cfg := {| logs_dir := "/logs"; max_concurrent_tasks := 2 |} in
  let e := sample_env t2 None 1 in
  2 <= running_count (store (Scheduler._schedule_pending_tasks cfg e three_submitted))
  \/ (forall i k,
        store three_submitted !! i = Some k -> Task.status k = PENDING ->
        gpus_truthy (probe e k) = true ->
        exists k', store (Scheduler._schedule_pending_tasks cfg e three_submitted) !! i
                   = Some k'
                   /\ started_from cfg e k k'
                   /\ (Task.status k' = RUNNING \/ Task.status k' = FAILED)).
Proof.
  intros cfg e. apply (admission_fills_slots cfg e three_submitted).
  apply (bool_decide_unpack (NoDup (ids (store three_submitted)))). vm_compute. exact I.
Defined.

(** X11: admission follows the pending order.  If [a] stands before [b]
    in [get_pending_tasks] and the phase changed the record of [b] (it
    was started, or its spawn failed), then [a] was considered before:
    either the probe found no devices for [a] and its record is as it
    was, or [a] was handed to [start_task] too. *)
Theorem admission_in_order :
  forall (cfg : Config) (e : Env) (w : World) (before between after : list Task.t)
         (a b : Task.t) (i j : nat),
    NoDup (ids (store w)) ->
    QueueManager.get_pending_tasks (store w) = before ++ a :: between ++ b :: after ->
    store w !! i = Some a -> store w !! j = Some b ->
    store (Scheduler._schedule_pending_tasks cfg e w) !! j <> Some b ->
    (gpus_truthy (probe e a) = false
     /\ store (Scheduler._schedule_pending_tasks cfg e w) !! i = Some a)
    \/ (exists k', store (Scheduler._schedule_pending_tasks cfg e w) !! i = Some k'
                   /\ started_from cfg e a k'
                   /\ (Task.status k' = RUNNING \/ Task.status k' = FAILED)).
Proof.
  intros cfg e w before between after a b i j Hnd Hl Hi Hj Hb.
  unfold Scheduler._schedule_pending_tasks in *.
  destruct (_ <=? _); [done|].
  pose proof (get_pending_tasks_NoDup _ Hnd) as Hndl.
  destruct (schedule_loop_prefix cfg e (QueueManager.get_pending_tasks (store w)) w Hnd Hndl)
    as (visited & rest & Hsplit & _ & Hleft & Hdone).
  assert (a ∈ visited) as Ha.
  { assert (b ∈ visited) as [m Hm]%list_elem_of_lookup.
    { assert (b ∈ visited ++ rest) as [|Hr]%elem_of_app; [|done|].
      - rewrite <- Hsplit, Hl. set_solver.
      - destruct Hb. by apply Hleft. }
    apply NoDup_fmap_1 in Hndl. rewrite Hl in Hndl.
    assert ((before ++ a :: between ++ b :: after) !! m = Some b) as Hm'.
    { rewrite <- Hl, Hsplit. by apply lookup_app_l_Some. }
    assert ((before ++ a :: between ++ b :: after)
              !! length (before ++ a :: between) = Some b) as Hpos.
    { replace (before ++ a :: between ++ b :: after)
        with ((before ++ a :: between) ++ b :: after) by (by rewrite <- app_assoc).
      by apply list_lookup_middle. }
    pose proof (NoDup_lookup _ _ _ _ Hndl Hm' Hpos) as ->.
    apply lookup_lt_Some in Hm. rewrite length_app in Hm. cbn in Hm.
    apply (list_elem_of_lookup_2 _ (length before)).
    assert ((visited ++ rest) !! length before = Some a) as Hat.
    { rewrite <- Hsplit, Hl. by apply list_lookup_middle. }
    rewrite lookup_app_l in Hat by lia. done. }
  specialize (Hdone a i Ha Hi).
  destruct (gpus_truthy (probe e a)); [right | by left].
  destruct Hdone as (k' & Hk' & Hs). exists k'. repeat split; [done | done |].
  destruct Hs as [procs ->]. apply start_task_status.
Qed.

Lemma admission_in_order_witness :
  let cfg := {| logs_dir := "/logs"; max_concurrent_tasks := 2 |} in
  let e := sample_env t2 None 1 in
  let w := {| store := [sample_task "aaaa000a" PENDING 0 t0 1;
                        sample_task "aaaa000b" PENDING 5 t1 1];
              running_processes := ∅ |} in
  (gpus_truthy (probe e (sample_task "aaaa000b" PENDING 5 t1 1)) = false
   /\ store (Scheduler._schedule_pending_tasks cfg e w) !! 1%nat
      = Some (sample_task "aaaa000b" PENDING 5 t1 1))
  \/ (exists k', store (Scheduler._schedule_pending_tasks cfg e w) !! 1%nat = Some k'
                 /\ started_from cfg e (sample_task "aaaa000b" PENDING 5 t1 1) k'
                 /\ (Task.status k' = RUNNING \/ Task.status k' = FAILED)).
Proof.
  intros cfg e w.
  apply (admission_in_order cfg e w [] [] []
           (sample_task "aaaa000b" PENDING 5 t1 1)
           (sample_task "aaaa000a" PENDING 0 t0 1) 1 0).
  - apply (bool_decide_unpack (NoDup (ids (store w)))). vm_compute. exact I.
  - vm_compute. reflexivity.
  - reflexivity.
  - reflexivity.
  - vm_compute. discriminate.
Defined.

(** X12: a probe failure skips admission but not reaping: when NVML fails
    for every query of the tick, the tick does what the reap phase does
    and nothing else; no task is started and the process table is that of
    the reap phase. *)
Theorem probe_failure_skips_admission :
  forall (cfg : Config) (e : Env) (w : World),
    (forall x, GPUMonitor.get_all_gpu_status (nvml e x) = None) ->
    Scheduler._tick cfg e w = Scheduler._check_running_tasks e w.
Proof.
  intros cfg e w Hfail. unfold Scheduler._tick, Scheduler._schedule_pending_tasks.
  destruct (_ <=? _); [done|]. apply schedule_loop_no_devices.
  intros u _. unfold probe, GPUMonitor.check_requirements. by rewrite Hfail.
Qed.

Lemma probe_failure_skips_admission_witness :
  let e := {| now := fun _ => t2; poll := fun _ => Some 0; alive := fun _ => false;
              spawn := fun _ _ => SpawnOk 4242; killpg := fun _ => KillOk;
              nvml := fun _ => {| nvmlDeviceGetCount := Some 2;
                                  nvmlDevice := fun _ => None |} |} in
  let cfg := {| logs_dir := "/logs"; max_concurrent_tasks := 2 |} in
  Scheduler._tick cfg e three_submitted = Scheduler._check_running_tasks e three_submitted.
Proof.
  intros e cfg. apply (probe_failure_skips_admission cfg e three_submitted).
  intros x. reflexivity.
Defined.


(** ** The state machine *)

Section StateMachine.
Import QueueManager Scheduler Handlers.
Implicit Types (w : World) (task k u : Task.t) (e : Env) (cfg : Config).

Lemma same_submission_refl k : same_submission k k.
Proof. by repeat split. Qed.

Lemma same_submission_trans k1 k2 k3 :
  same_submission k1 k2 -> same_submission k2 k3 -> same_submission k1 k3.
Proof. unfold same_submission. intros H12 H23. intuition congruence. Qed.

Lemma transition_refl s : transition s s = true.
Proof. by destruct s. Qed.

Lemma reaped_same_submission e c k : same_submission k (reaped e c k).
Proof. unfold reaped. destruct (c =? 0); by repeat split. Qed.

(** The reap phase, for a record of the store. *)
Lemma check_running_lookup e w i k :
  NoDup (ids (store w)) -> store w !! i = Some k ->
  store (_check_running_tasks e w) !! i
  = Some (if bool_decide (Task.status k = RUNNING)
          then reap_outcome e (running_processes w) k else k).
Proof.
  intros Hnd Hi. unfold _check_running_tasks. case_bool_decide as Hr.
  - apply check_running_loop_lookup; [done | by apply get_running_tasks_NoDup | done |].
    apply elem_of_get_running_tasks. split; [done | by eapply list_elem_of_lookup_2].
  - apply check_running_loop_frame; [done|].
    intros u [Hu Hin]%elem_of_get_running_tasks He.
    rewrite (unique_ids_elem (store w) u k Hnd Hin
               (list_elem_of_lookup_2 _ _ _ Hi) He) in Hu. done.
Qed.

(** What a cancel request writes. *)
Lemma handle_cancel_shape e x w :
  match get_task (store w) x with
  | Some k0 =>
      if bool_decide (Task.status k0 = RUNNING \/ Task.status k0 = PENDING) then
        store (handle_cancel e x w).1
        = update_task (store w)
            (Task.with_finished_at (Some (now e x)) (Task.with_status CANCELLED k0))
        /\ (handle_cancel e x w).2 = {| cancelled := true; cancel_error := None |}
      else
        store (handle_cancel e x w).1 = store w
        /\ running_processes (handle_cancel e x w).1 = running_processes w
        /\ (handle_cancel e x w).2 = {| cancelled := false; cancel_error := None |}
  | None => handle_cancel e x w
            = (w, {| cancelled := false; cancel_error := Some "Task not found" |})
  end.
Proof.
  unfold handle_cancel. destruct (get_task (store w) x) as [k0|] eqn:Hg; [|done].
  unfold has_status. destruct (decide (Task.status k0 = RUNNING)) as [Hr|Hr].
  - rewrite (bool_decide_eq_true_2 _ Hr), bool_decide_eq_true_2 by (by left).
    by destruct (TaskRunner.kill_task _ _ _).
  - rewrite (bool_decide_eq_false_2 _ Hr). unfold cancel_task, has_status. rewrite Hg.
    destruct (decide (Task.status k0 = PENDING)) as [Hp|Hp].
    + rewrite (bool_decide_eq_true_2 _ Hp), bool_decide_eq_true_2 by (by right). done.
    + rewrite (bool_decide_eq_false_2 _ Hp), bool_decide_eq_false_2 by (by intros [?|?]).
      done.
Qed.

Lemma update_task_Forall (P : Task.t -> Prop) tasks task :
  Forall P tasks -> P task -> Forall P (update_task tasks task).
Proof.
  intros Hl Ht. induction Hl as [|k l Hk Hl IH]; [constructor|]. cbn.
  destruct (String.eqb (Task.id k) (Task.id task)); by constructor.
Qed.

Lemma reaped_ok e c k :
  record_ok k -> Task.status k = RUNNING -> record_ok (reaped e c k).
Proof.
  unfold record_ok. intros Hk Hr. rewrite Hr in Hk.
  destruct Hk as (_ & _ & Hs & _ & _). unfold reaped.
  destruct (Z.eqb_spec c 0) as [->|Hc]; cbn.
  - repeat split; [by eexists | done].
  - split; [by eexists|]. left. exists c. by repeat split.
Qed.

Lemma start_task_ok cfg e procs k g :
  record_ok k -> Task.status k = PENDING -> g <> [] ->
  record_ok (TaskRunner.start_task cfg e procs k g).1.2.
Proof.
  unfold record_ok. intros Hk Hp Hg. rewrite Hp in Hk.
  destruct Hk as (Hs & Hf & Hpid & Hec & _). unfold TaskRunner.start_task.
  destruct (spawn e _ _); cbn.
  - repeat split; [by eexists | done | by eexists | done | done].
  - split; [by eexists|]. by right.
Qed.

Lemma check_running_loop_ok e l w :
  Forall record_ok (store w) ->
  Forall (fun u => record_ok u /\ Task.status u = RUNNING) l ->
  Forall record_ok (store (check_running_loop e l w)).
Proof.
  intros Hw Hl. revert w Hw. induction Hl as [|u l [Hu Hr] _ IH]; intros w Hw; [done|].
  cbn. apply IH. unfold check_running_body.
  destruct (TaskRunner.check_task _ _ _) as [[c|] procs]; [|done]. cbn.
  apply update_task_Forall; [done | by apply reaped_ok].
Qed.

Lemma schedule_loop_ok cfg e l w :
  Forall record_ok (store w) ->
  Forall (fun u => record_ok u /\ Task.status u = PENDING) l ->
  Forall record_ok (store (schedule_loop cfg e l w)).
Proof.
  intros Hw Hl. revert w Hw. induction Hl as [|u l [Hu Hp] _ IH]; intros w Hw; [done|].
  rewrite schedule_loop_cons_shape. destruct (_ <=? _); [done|].
  destruct (gpus_truthy (probe e u)) eqn:Hg; [|by apply IH].
  apply IH. cbn. apply update_task_Forall; [done|].
  apply start_task_ok; [done | done |].
  by destruct (probe e u) as [[|]|].
Qed.

Lemma run_ok cfg o w : Forall record_ok (store w) -> Forall record_ok (store (run cfg o w)).
Proof.
  intros Hw. destruct o as [new_id created params|e|e x]; cbn [run].
  - destruct (handle_submit _ _ _ _) as [[w' r]|] eqn:Hs; [|done].
    unfold handle_submit in Hs.
    repeat match type of Hs with
           | (mbind _ ?x) = _ => destruct x; cbn [mbind option_bind] in Hs; [|done]
           | (?x ≫= _) = _ => destruct x; cbn [mbind option_bind] in Hs; [|done]
           end.
    cbn in Hs. injection Hs as <- <-. cbn. apply Forall_app. split; [done|].
    constructor; [|constructor]. by repeat split.
  - unfold _tick.
    assert (Forall record_ok (store (_check_running_tasks e w))) as H1.
    { apply check_running_loop_ok; [done|]. apply Forall_forall.
      intros u [Hr Hin]%elem_of_get_running_tasks. split; [|done].
      rewrite Forall_forall in Hw. by apply Hw. }
    unfold _schedule_pending_tasks. destruct (_ <=? _); [done|].
    apply schedule_loop_ok; [done|]. apply Forall_forall.
    intros u [Hp Hin]%elem_of_get_pending_tasks. split; [|done].
    rewrite Forall_forall in H1. by apply H1.
  - pose proof (handle_cancel_shape e x w) as Hc.
    destruct (get_task (store w) x) as [k0|] eqn:Hg; [|by rewrite Hc].
    destruct (bool_decide _); [|by destruct Hc as [-> _]].
    destruct Hc as [-> _]. apply update_task_Forall; [done|].
    unfold record_ok. cbn. by eexists.
Qed.

End StateMachine.

(** X14: every operation of the daemon moves each task along the state
    machine.  In a store with unique ids, the record found at a place of
    the store after a submission, a tick or a cancel request carries the
    fields of the submission unchanged (id, name, command, working
    directory, environment, requirements, priority, creation time), and
    its status is the old one or one reached by an arrow: pending to
    running, failed or cancelled; running to completed, failed or
    cancelled. *)
Theorem daemon_step_follows_state_machine :
  forall (cfg : Config) (o : op) (w : World) (i : nat) (k : Task.t),
    NoDup (ids (store w)) ->
    store w !! i = Some k ->
    exists k', store (run cfg o w) !! i = Some k'
               /\ same_submission k k'
               /\ transition (Task.status k) (Task.status k') = true.
Proof.
  intros cfg o w i k Hnd Hi.
  pose proof (same_submission_refl k) as Hsame.
  pose proof (transition_refl (Task.status k)) as Hstay.
  destruct o as [new_id created params|e|e x]; cbn [run].
  - destruct (Handlers.handle_submit _ _ _ _) as [[w' r]|] eqn:Hs; [|by exists k].
    apply handle_submit_store in Hs as (task & -> & _).
    exists k. split; [by apply lookup_app_l_Some | done].
  - unfold Scheduler._tick.
    pose proof (check_running_lookup e w i k Hnd Hi) as H1.
    set (k1 := if bool_decide (Task.status k = RUNNING)
               then reap_outcome e (running_processes w) k else k) in H1.
    assert (same_submission k k1
            /\ transition (Task.status k) (Task.status k1) = true
            /\ (Task.status k1 = PENDING -> k1 = k)) as (Hs1 & Ht1 & Hp1).
    { subst k1. case_bool_decide as Hr; [|done]. unfold reap_outcome.
      destruct (_.1) as [c|]; [|done].
      split; [apply reaped_same_submission|].
      rewrite reaped_status, Hr. by destruct (c =? 0). }
    assert (NoDup (ids (store (Scheduler._check_running_tasks e w)))) as Hnd1.
    { unfold Scheduler._check_running_tasks. by rewrite check_running_loop_ids. }
    destruct (schedule_pending_lookup cfg e _ i k1 Hnd1 H1)
      as [H2|(Hp & _ & k2 & H2 & [procs ->])].
    + by exists k1.
    + pose proof (Hp1 Hp) as Hk1. clearbody k1. subst k1.
      eexists. split; [exact H2|]. split.
      * apply start_task_same_submission.
      * rewrite Hp. by destruct (start_task_status cfg e procs k (default [] (probe e k)))
          as [-> | ->].
  - pose proof (handle_cancel_shape e x w) as Hc.
    destruct (QueueManager.get_task (store w) x) as [k0|] eqn:Hg;
      [|rewrite Hc; by exists k].
    case_bool_decide as Hrp; [|destruct Hc as [-> _]; by exists k].
    destruct Hc as [-> _].
    destruct (decide (Task.id k = x)) as [Hx|Hx].
    + assert (k = k0) as <-.
      { apply (unique_ids_elem (store w)); [done | by eapply list_elem_of_lookup_2
          | by eapply get_task_elem | by rewrite (get_task_id _ _ _ Hg)]. }
      eexists. split; [by apply (update_task_lookup_eq _ _ i k)|].
      split; [by repeat split|]. cbn. by destruct Hrp as [-> | ->].
    + exists k. split; [|done]. apply update_task_lookup_ne; [done|].
      cbn. by rewrite (get_task_id _ _ _ Hg).
Qed.

Lemma daemon_step_follows_state_machine_witness :
  let cfg := {| logs_dir := "/logs"; max_concurrent_tasks := 2 |} in
  exists k', store (run cfg (Tick (sample_env t2 None 1)) three_submitted) !! 0%nat = Some k'
             /\ same_submission
                  (Task.mk "aaaa0001" "" "true" "" [] (GPURequirement.mk None 0%Q 100%Q 1)
                     PENDING 0 t0 None None [] None None "" "") k'
             /\ transition PENDING (Task.status k') = true.
Proof.
  intros cfg.
  apply (daemon_step_follows_state_machine cfg (Tick (sample_env t2 None 1))
           three_submitted 0); [|reflexivity].
  apply (bool_decide_unpack (NoDup (ids (store three_submitted)))). vm_compute. exact I.
Defined.

(** X15: in every state the daemon reaches from the empty store, the
    runtime fields of each record fit its status: a pending task has no
    pid, timestamps of start or end, exit code or devices; a running task
    has a pid, a start time and at least one device, and no end time; a
    completed task has exit code 0 and an end time; a failed task has an
    end time and either an exit code other than 0 with the message
    ["Process exited with code <c>"], or no exit code and no start (its
    spawn failed); a cancelled task has an end time. *)
Theorem reachable_records_ok :
  forall (cfg : Config) (w : World),
    reachable cfg w -> Forall record_ok (store w).
Proof.
  intros cfg w. induction 1 as [|o w _ IH]; [constructor | by apply run_ok].
Qed.

Lemma reachable_records_ok_witness :
  Forall record_ok
    (store (run {| logs_dir := "/logs"; max_concurrent_tasks := 2 |}
                (Cancel (sample_env t2 None 1) "aaaa0001")
                (run {| logs_dir := "/logs"; max_concurrent_tasks := 2 |}
                     (Tick (sample_env t2 None 1)) three_submitted))).
Proof.
  apply (reachable_records_ok {| logs_dir := "/logs"; max_concurrent_tasks := 2 |}).
  unfold three_submitted. repeat constructor.
Defined.

(** ** Cancel and submit requests *)

(** X16: a cancel request for a running or pending task marks it
    cancelled with [finished_at = now] and answers [cancelled = True],
    whatever the outcome of the signal sent to a running child; for a
    finished task it changes nothing and answers [cancelled = False]; for
    an unknown id it answers [False] with the error ["Task not found"].
    Other ids read as before. *)
Theorem cancel_request_effect :
  forall (e : Env) (x y : string) (w : World),
    let r := Handlers.handle_cancel e x w in
    (y <> x -> QueueManager.get_task (store r.1) y = QueueManager.get_task (store w) y)
    /\ match QueueManager.get_task (store w) x with
       | Some k =>
           if bool_decide (Task.status k = RUNNING \/ Task.status k = PENDING) then
             r.2 = {| Handlers.cancelled := true; Handlers.cancel_error := None |}
             /\ QueueManager.get_task (store r.1) x
                = Some (Task.mk (Task.id k) (Task.name k) (Task.command k)
                          (Task.working_dir k) (Task.env k) (Task.requirements k)
                          CANCELLED (Task.priority k) (Task.created_at k)
                          (Task.started_at k) (Some (now e x)) (Task.assigned_gpus k)
                          (Task.pid k) (Task.exit_code k) (Task.error_message k)
                          (Task.log_file k))
           else
             r.2 = {| Handlers.cancelled := false; Handlers.cancel_error := None |}
             /\ store r.1 = store w /\ running_processes r.1 = running_processes w
       | None =>
           r = (w, {| Handlers.cancelled := false;
                      Handlers.cancel_error := Some "Task not found" |})
       end.
Proof.
  intros e x y w r. subst r. pose proof (handle_cancel_shape e x w) as Hc.
  destruct (QueueManager.get_task (store w) x) as [k|] eqn:Hg; [|by rewrite Hc].
  pose proof (get_task_id _ _ _ Hg) as Hid.
  destruct (bool_decide _).
  - destruct Hc as [Hs Hr]. rewrite Hs, Hr. split.
    + intros Hy. apply get_task_update_ne. cbn. by rewrite Hid.
    + split; [done|].
      pose proof (get_task_update_eq (store w)
        (Task.with_finished_at (Some (now e x)) (Task.with_status CANCELLED k))) as H.
      cbn [Task.with_finished_at Task.with_status Task.id] in H.
      rewrite Hid, Hg in H. exact H.
  - destruct Hc as (Hs & Hp & Hr). by rewrite Hs, Hr.
Qed.

(** X17: cancelling is idempotent: a second cancel request for the same
    id changes neither the store nor the process table and answers
    [cancelled = False]; the time of the first cancel stays. *)
Theorem cancel_twice :
  forall (e1 e2 : Env) (x : string) (w : World),
    let w1 := (Handlers.handle_cancel e1 x w).1 in
    store (Handlers.handle_cancel e2 x w1).1 = store w1
    /\ running_processes (Handlers.handle_cancel e2 x w1).1 = running_processes w1
    /\ Handlers.cancelled (Handlers.handle_cancel e2 x w1).2 = false.
Proof.
  intros e1 e2 x w w1.
  assert (match QueueManager.get_task (store w1) x with
          | Some k => Task.status k <> RUNNING /\ Task.status k <> PENDING
          | None => True
          end) as Hafter.
  { subst w1. pose proof (handle_cancel_shape e1 x w) as Hc.
    destruct (QueueManager.get_task (store w) x) as [k|] eqn:Hg.
    - case_bool_decide as Hrp.
      + destruct Hc as [-> _].
        pose proof (get_task_update_eq (store w)
          (Task.with_finished_at (Some (now e1 x)) (Task.with_status CANCELLED k))) as H.
        cbn [Task.with_finished_at Task.with_status Task.id] in H.
        rewrite (get_task_id _ _ _ Hg), Hg in H. by rewrite H.
      + destruct Hc as [-> _]. rewrite Hg. split; intros ?; apply Hrp; [by left | by right].
    - rewrite Hc. cbn. by rewrite Hg. }
  pose proof (handle_cancel_shape e2 x w1) as Hc.
  destruct (QueueManager.get_task (store w1) x) as [k|]; [|by rewrite Hc].
  rewrite bool_decide_eq_false_2 in Hc by (intros [?|?]; by destruct Hafter).
  by destruct Hc as (-> & -> & ->).
Qed.

(** X18: a [submit] request whose parameters have the declared types and
    include a [command] is accepted: it returns the drawn id, leaves the
    records of the store and the process table as they are, and appends
    one pending task with that id, the given command and creation time,
    and empty runtime fields; every other field is the value of its
    parameter, or the default when the parameter is absent (name [""],
    working directory [""], no environment, priority 0, one device, any
    device, no memory bound, 100% utilisation).  Without a [command] the
    request fails, whatever the other parameters, and nothing is
    written. *)
Theorem submit_appends_pending :
  forall (new_id : string) (created : datetime) (params : list (string * pyval))
         (w : World),
    (dict_item "command" params = None ->
     Handlers.handle_submit new_id created params w = None)
    /\ (forall c : string,
          submit_typed params ->
          dict_item "command" params = Some (PStr c) ->
          exists task,
            Handlers.handle_submit new_id created params w
            = Some ({| store := store w ++ [task];
                       running_processes := running_processes w |}, new_id)
            /\ Task.id task = new_id /\ Task.command task = c
            /\ Task.status task = PENDING /\ Task.created_at task = created
            /\ record_ok task
            /\ Task.error_message task = "" /\ Task.log_file task = ""
            /\ as_str (dict_get_default "name" (PStr "") params) = Some (Task.name task)
            /\ as_str (dict_get_default "working_dir" (PStr "") params)
               = Some (Task.working_dir task)
            /\ as_str_dict (dict_get_default "env" (PDict []) params)
               = Some (Task.env task)
            /\ as_int (dict_get_default "priority" (PInt 0) params)
               = Some (Task.priority task)
            /\ as_opt_int_list (dict_get "gpu_ids" params)
               = Some (GPURequirement.gpu_ids (Task.requirements task))
            /\ as_float (dict_get_default "min_free_memory_gb" (PInt 0) params)
               = Some (GPURequirement.min_free_memory_gb (Task.requirements task))
            /\ as_float (dict_get_default "max_util_percent" (PInt 100) params)
               = Some (GPURequirement.max_util_percent (Task.requirements task))
            /\ as_int (dict_get_default "gpu_count" (PInt 1) params)
               = Some (GPURequirement.gpu_count (Task.requirements task))).
Proof.
  intros new_id created params w. split.
  - intros Hnone. unfold Handlers.handle_submit. rewrite Hnone.
    repeat match goal with
           | |- (mbind _ ?x) = _ => destruct x; cbn [mbind option_bind]; [|done]
           | |- (?x ≫= _) = _ => destruct x; cbn [mbind option_bind]; [|done]
           end.
    done.
  - intros c (Hids & Hmem & Hutil & Hcnt & Hname & Hwd & Henv & Hprio) Hc.
    assert (forall {A} (read : pyval -> option A) key dflt,
              param_typed read key params -> is_Some (read dflt) ->
              is_Some (read (dict_get_default key dflt params))) as Hread.
    { intros A read key dflt Ht Hd. unfold param_typed, dict_get_default in *.
      by destruct (assoc key params). }
    destruct (Hread _ as_opt_int_list "gpu_ids" PNone Hids ltac:(by eexists))
      as [gids E1].
    destruct (Hread _ as_float "min_free_memory_gb" (PInt 0) Hmem ltac:(by eexists))
      as [mem E2].
    destruct (Hread _ as_float "max_util_percent" (PInt 100) Hutil ltac:(by eexists))
      as [util E3].
    destruct (Hread _ as_int "gpu_count" (PInt 1) Hcnt ltac:(by eexists)) as [cnt E4].
    destruct (Hread _ as_str "name" (PStr "") Hname ltac:(by eexists)) as [n E5].
    destruct (Hread _ as_str "working_dir" (PStr "") Hwd ltac:(by eexists)) as [wd E6].
    destruct (Hread _ as_str_dict "env" (PDict []) Henv ltac:(by eexists)) as [ev E7].
    destruct (Hread _ as_int "priority" (PInt 0) Hprio ltac:(by eexists)) as [p E8].
    change (dict_get_default "gpu_ids" PNone params) with (dict_get "gpu_ids" params) in E1.
    exists (Task.mk new_id n c wd ev (GPURequirement.mk gids mem util cnt)
              PENDING p created None None [] None None "" "").
    unfold Handlers.handle_submit.
    rewrite E1, E2, E3, E4, E5, Hc, E6, E7, E8. cbn.
    repeat split; done.
Qed.

Lemma submit_appends_pending_witness :
  let params := [("command", PStr "python train.py"); ("gpu_count", PInt 2);
                 ("min_free_memory_gb", PFloat 8%Q); ("gpu_ids", PList [PInt 0; PInt 1]);
                 ("env", PDict [("SEED", PStr "7")])] in
  exists task,
    Handlers.handle_submit "aaaa0001" t0 params empty_world
    = Some ({| store := [task]; running_processes := ∅ |}, "aaaa0001")
    /\ Task.command task = "python train.py"
    /\ Task.status task = PENDING
    /\ GPURequirement.gpu_count (Task.requirements task) = 2
    /\ GPURequirement.gpu_ids (Task.requirements task) = Some [0; 1]
    /\ Task.env task = [("SEED", "7")]
    /\ Task.priority task = 0.
Proof.
  intros params.
  destruct (proj2 (submit_appends_pending "aaaa0001" t0 params empty_world)
              "python train.py") as (task & Hs & _ & Hc & Hst & _ & _ & _ & _ & _ & _
                                      & Henv & Hp & Hids & _ & _ & Hcnt).
  - unfold submit_typed, param_typed. cbn. repeat split; eexists; reflexivity.
  - reflexivity.
  - exists task. split; [exact Hs|]. split; [exact Hc|]. split; [exact Hst|].
    cbn in Henv, Hp, Hids, Hcnt.
    split; [by injection Hcnt|]. split; [by injection Hids|].
    split; [by injection Henv | by injection Hp].
Defined.

(** ** The connection handler *)

(** X19: whatever data (not empty) is received, the connection handler
    answers with a well-formed response and lets no exception of the
    router escape.  The response is [success = True] with the handler's
    result as data exactly when the request is an object whose action is
    a non-empty string naming a registered handler, and the call of that
    handler returned; in every other case it has [success = False], no
    data and an error message. *)
Theorem connection_always_answers :
  forall (float_repr : Q -> string) (handlers : list (string * (pyval -> outcome pyval)))
         (r : received),
    let resp := _handle_connection float_repr handlers r in
    response_ok resp
    /\ (forall result,
          served handlers r result
          <-> resp = {| success := true; data := Some result; error := None |})
    /\ (success resp = true <-> exists result, served handlers r result).
Proof.
  intros float_repr handlers r resp. subst resp.
  assert (forall resp : response,
            success resp = false -> data resp = None -> is_Some (error resp) ->
            (forall result, ~ served handlers r result) ->
            response_ok resp
            /\ (forall result,
                  served handlers r result
                  <-> resp = {| success := true; data := Some result; error := None |})
            /\ (success resp = true <-> exists result, served handlers r result))
    as Hfailing.
  { intros resp Hs Hd He Hnot. unfold response_ok. rewrite Hs, Hd. split; [done|].
    split.
    - intros result. split; [by intros ?%Hnot|]. intros ->. done.
    - split; [done | by intros [result ?%Hnot]]. }
  destruct r as [v| |m]; cbn [_handle_connection].
  2, 3: apply Hfailing; [done | done | by eexists |];
        by intros result (? & ? & ? & ? & _).
  destruct v as [| | | | | |request];
    try (apply Hfailing; [done | done | by eexists |];
         by intros result (? & ? & ? & ? & _)).
  assert (forall result,
            served handlers (Decoded (PDict request)) result ->
            exists action handler,
              dict_get "action" request = PStr action /\ action <> ""
              /\ assoc action handlers = Some handler
              /\ handler (dict_get_default "params" (PDict []) request) = Returns result)
    as Hserved.
  { intros result (request' & action & handler & [= <-] & Ha & Hne & Hh & Hr).
    by exists action, handler. }
  unfold _process_request.
  destruct (truthy (dict_get "action" request)) eqn:Ht; cbn [negb].
  2: { apply Hfailing; [done | done | by eexists |].
       intros result (action & handler & Ha & Hne & _)%Hserved.
       rewrite Ha in Ht. cbn in Ht. apply negb_false_iff, String.eqb_eq in Ht. done. }
  destruct (hashable (dict_get "action" request)) eqn:Hh; cbn [negb].
  2: { apply Hfailing; [done | done | by eexists |].
       intros result (action & handler & Ha & _)%Hserved. by rewrite Ha in Hh. }
  destruct (find_handler handlers (dict_get "action" request)) as [handler|] eqn:Hf.
  2: { apply Hfailing; [done | done | by eexists |].
       intros result (action & handler & Ha & _ & Hh' & _)%Hserved.
       rewrite Ha in Hf. cbn in Hf. congruence. }
  destruct (handler _) as [result|m] eqn:Hr.
  2: { apply Hfailing; [done | done | by eexists |].
       intros result (action & handler' & Ha & _ & Hh' & Hr')%Hserved.
       rewrite Ha in Hf. cbn in Hf. congruence. }
  assert (served handlers (Decoded (PDict request)) result) as Hyes.
  { unfold find_handler in Hf.
    destruct (dict_get "action" request) as [| | | |action| |] eqn:Ha; try done.
    exists request, action, handler. repeat split; try done.
    intros ->. done. }
  split; [split; [by eexists | done]|]. split.
  - intros result'. split.
    + intros (action & handler' & Ha & _ & Hh' & Hr')%Hserved.
      rewrite Ha in Hf. cbn in Hf. congruence.
    + by intros [= <-].
  - split; [by exists result | done].
Qed.

(** ** The devices a match selects *)

Section Selected.
Import GPUMonitor.

Lemma StronglySorted_sublist {A} (R : A -> A -> Prop) l1 l2 :
  l1 `sublist_of` l2 -> StronglySorted R l2 -> StronglySorted R l1.
Proof.
  induction 1 as [|x l1 l2 Hsub IH|x l1 l2 Hsub IH]; intros Hs; [done| |].
  - apply StronglySorted_inv in Hs as [Hs Hx]. constructor; [by apply IH|].
    rewrite Forall_forall in Hx |- *. intros y Hy. apply Hx.
    by eapply elem_of_sublist.
  - apply StronglySorted_inv in Hs as [Hs _]. by apply IH.
Qed.

Lemma StronglySorted_lookup {A} (R : A -> A -> Prop) (l : list A) :
  (forall i j x y, l !! i = Some x -> l !! j = Some y -> (i < j)%nat -> R x y) ->
  StronglySorted R l.
Proof.
  induction l as [|x l IH]; intros H; constructor.
  - apply IH. intros i j a b Hi Hj Hij. apply (H (S i) (S j)); [done | done | lia].
  - apply Forall_forall. intros y [j Hj]%list_elem_of_lookup.
    apply (H 0%nat (S j)); [done | done | lia].
Qed.

Lemma seqZ_increasing m n : StronglySorted Z.lt (seqZ m n).
Proof.
  apply StronglySorted_lookup. intros i j x y Hi Hj Hij.
  apply lookup_seqZ in Hi as [-> _], Hj as [-> _]. lia.
Qed.

Lemma get_all_gpu_status_elem nv snapshot g :
  get_all_gpu_status nv = Some snapshot -> g ∈ snapshot ->
  get_gpu_status nv (GPUStatus.index g) = Some g
  /\ 0 <= GPUStatus.index g < get_gpu_count nv.
Proof.
  intros Hs [n Hn]%list_elem_of_lookup. unfold get_all_gpu_status in Hs.
  apply mapM_Some_1 in Hs.
  destruct (Forall2_lookup_r _ _ _ _ _ Hs Hn) as (i & Hi & Hg).
  rewrite (get_gpu_status_index _ _ _ Hg). split; [done|].
  apply lookup_seqZ in Hi. lia.
Qed.

End Selected.

(** X20: when [check_requirements] returns devices for a requirement
    with [gpu_count >= 0], it returns exactly [gpu_count] of them, in
    strictly increasing order (so no device twice); each is the index of
    an existing device, whose status as just read passes the memory and
    utilisation bounds, and which is listed in [gpu_ids] when that list
    is not empty. *)
Theorem selected_devices :
  forall (nv : Nvml) (req : GPURequirement.t) (selected : list Z),
    GPUMonitor.check_requirements nv req = Some selected ->
    0 <= GPURequirement.gpu_count req ->
    Z.of_nat (length selected) = GPURequirement.gpu_count req
    /\ StronglySorted Z.lt selected
    /\ (forall i, i ∈ selected ->
          0 <= i < GPUMonitor.get_gpu_count nv
          /\ (exists g, GPUMonitor.get_gpu_status nv i = Some g
                        /\ within_bounds req g = true)
          /\ (forall ids, GPURequirement.gpu_ids req = Some ids -> ids <> [] ->
                          py_in i ids = true)).
Proof.
  intros nv req selected Hsel Hcount.
  unfold GPUMonitor.check_requirements in Hsel.
  destruct (GPUMonitor.get_all_gpu_status nv) as [snapshot|] eqn:Hs; [|done].
  unfold GPUMonitor.select in Hsel.
  destruct (Z.leb_spec (GPURequirement.gpu_count req)
              (Z.of_nat (length (GPUMonitor.candidates req snapshot)))) as [Hle|];
    [|done].
  injection Hsel as <-. rewrite slice_to_nonneg by done.
  rewrite candidates_survivors in *. split; [|split].
  - rewrite length_take. lia.
  - apply (StronglySorted_sublist _ _ (GPUStatus.index <$> snapshot)).
    + etrans; [apply sublist_take|]. apply fmap_sublist, sublist_filter.
    + rewrite (get_all_gpu_status_index _ _ Hs). apply seqZ_increasing.
  - intros i Hi.
    assert (i ∈ GPUStatus.index <$> survivors req snapshot) as Hi'.
    { eapply elem_of_sublist; [exact Hi | apply sublist_take]. }
    apply list_elem_of_fmap in Hi' as (g & -> & Hg).
    apply (list_elem_of_filter _ snapshot g) in Hg as [Hok Hin].
    apply andb_prop in Hok as [Hadm Hb].
    destruct (get_all_gpu_status_elem nv snapshot g Hs Hin) as [Hst Hrange].
    split; [done|]. split; [by exists g|].
    intros ids Hids Hne. unfold admissible in Hadm. rewrite Hids in Hadm.
    by destruct ids.
Qed.

Lemma selected_devices_witness :
  let nv := {| nvmlDeviceGetCount := Some 4;
               nvmlDevice := fun i =>
                 Some (Build_nvml_device "gpu" 25769803776 0
                         (if i =? 1 then 1048576 else 25165824000) 0 40) |} in
  let req := GPURequirement.mk (Some [3; 1; 2]) 4%Q 50%Q 2 in
  Z.of_nat (length [2; 3]) = 2
  /\ StronglySorted Z.lt [2; 3]
  /\ (forall i, i ∈ [2; 3] ->
        0 <= i < GPUMonitor.get_gpu_count nv
        /\ (exists g, GPUMonitor.get_gpu_status nv i = Some g
                      /\ within_bounds req g = true)
        /\ (forall ids, GPURequirement.gpu_ids req = Some ids -> ids <> [] ->
                        py_in i ids = true)).
Proof.
  intros nv req. apply (selected_devices nv req [2; 3]); [reflexivity | cbn; lia].
Defined.

(** ** Reading a record with keys missing *)

